(** * Supervised producer/consumer tasks of [hello_world_main.c]

    A shallow embedding of the three FreeRTOS tasks of
    [src/main/hello_world_main.c] ([task_generator], [task_receiver],
    [task_supervisor]) and the properties of their supervision and
    recovery protocol.

    Each task body is a sequential C function; it is embedded as a
    computation in a small monad that threads the global variables of the
    file (and the tasks' loop-carried locals), records the calls made to
    the host runtime in a trace, and can leave the loop early ([break],
    [vTaskDelete(NULL)], [esp_restart()]).  What the host runtime answers
    (tick counter, heap statistics, malloc, task creation, arrival of a
    message during a timed receive) is an explicit input of each loop
    iteration. *)

From Stdlib Require Import ZArith List Bool Lia.
Import ListNotations.
Local Open Scope Z_scope.

(** ** Machine integers

    [int] is a 32-bit two's complement integer, [TickType_t] and [size_t]
    are 32-bit unsigned integers (ESP32). *)

Definition wrap_u32 (x : Z) : Z := x mod 2 ^ 32.

Definition wrap_int (x : Z) : Z := (x + 2 ^ 31) mod 2 ^ 32 - 2 ^ 31.

(** [a - b] on [TickType_t]. *)
Definition u32_sub (a b : Z) : Z := wrap_u32 (a - b).

(** [x++] on [int]. *)
Definition int_incr (x : Z) : Z := wrap_int (x + 1).

(** ** Configuration macros *)

Definition QUEUE_LEN : nat := 10.

Definition GEN_PERIOD_MS : Z := 150.
Definition RX_TIMEOUT_MS : Z := 1000.
Definition SUP_PERIOD_MS : Z := 1500.

Definition RX_WARN_THRESHOLD : Z := 2.
Definition RX_RECOVER_SOFT : Z := 3.
Definition RX_RECOVER_RESET_Q : Z := 4.
Definition RX_FAIL_THRESHOLD : Z := 5.

(** ** Global state *)

(** A [TaskHandle_t] is opaque; [NULL] is [None]. *)
Definition Handle : Type := nat.

Definition TaskHandle_t : Type := option Handle.

Record State : Type := mkState {
  g_queue : list Z;            (* messages held by the queue [g_queue], oldest first *)
  g_task_gen : TaskHandle_t;
  g_task_rx : TaskHandle_t;
  g_hb_gen : Z;
  g_hb_rx : Z;
  g_hb_sup : Z;
  g_flag_gen_ok : bool;
  g_flag_rx_ok : bool;
  value : Z;                   (* local of [task_generator] *)
  timeouts : Z;                (* local of [task_receiver] *)
  rx_restarts : Z              (* local of [task_supervisor] *)
}.

Definition set_g_queue (q : list Z) (s : State) : State :=
  mkState q (g_task_gen s) (g_task_rx s) (g_hb_gen s) (g_hb_rx s) (g_hb_sup s)
          (g_flag_gen_ok s) (g_flag_rx_ok s) (value s) (timeouts s) (rx_restarts s).

Definition set_g_task_gen (h : TaskHandle_t) (s : State) : State :=
  mkState (g_queue s) h (g_task_rx s) (g_hb_gen s) (g_hb_rx s) (g_hb_sup s)
          (g_flag_gen_ok s) (g_flag_rx_ok s) (value s) (timeouts s) (rx_restarts s).

Definition set_g_task_rx (h : TaskHandle_t) (s : State) : State :=
  mkState (g_queue s) (g_task_gen s) h (g_hb_gen s) (g_hb_rx s) (g_hb_sup s)
          (g_flag_gen_ok s) (g_flag_rx_ok s) (value s) (timeouts s) (rx_restarts s).

Definition set_g_hb_gen (t : Z) (s : State) : State :=
  mkState (g_queue s) (g_task_gen s) (g_task_rx s) t (g_hb_rx s) (g_hb_sup s)
          (g_flag_gen_ok s) (g_flag_rx_ok s) (value s) (timeouts s) (rx_restarts s).

Definition set_g_hb_rx (t : Z) (s : State) : State :=
  mkState (g_queue s) (g_task_gen s) (g_task_rx s) (g_hb_gen s) t (g_hb_sup s)
          (g_flag_gen_ok s) (g_flag_rx_ok s) (value s) (timeouts s) (rx_restarts s).

Definition set_g_hb_sup (t : Z) (s : State) : State :=
  mkState (g_queue s) (g_task_gen s) (g_task_rx s) (g_hb_gen s) (g_hb_rx s) t
          (g_flag_gen_ok s) (g_flag_rx_ok s) (value s) (timeouts s) (rx_restarts s).

Definition set_g_flag_gen_ok (b : bool) (s : State) : State :=
  mkState (g_queue s) (g_task_gen s) (g_task_rx s) (g_hb_gen s) (g_hb_rx s) (g_hb_sup s)
          b (g_flag_rx_ok s) (value s) (timeouts s) (rx_restarts s).

Definition set_g_flag_rx_ok (b : bool) (s : State) : State :=
  mkState (g_queue s) (g_task_gen s) (g_task_rx s) (g_hb_gen s) (g_hb_rx s) (g_hb_sup s)
          (g_flag_gen_ok s) b (value s) (timeouts s) (rx_restarts s).

Definition set_value (v : Z) (s : State) : State :=
  mkState (g_queue s) (g_task_gen s) (g_task_rx s) (g_hb_gen s) (g_hb_rx s) (g_hb_sup s)
          (g_flag_gen_ok s) (g_flag_rx_ok s) v (timeouts s) (rx_restarts s).

Definition set_timeouts (n : Z) (s : State) : State :=
  mkState (g_queue s) (g_task_gen s) (g_task_rx s) (g_hb_gen s) (g_hb_rx s) (g_hb_sup s)
          (g_flag_gen_ok s) (g_flag_rx_ok s) (value s) n (rx_restarts s).

Definition set_rx_restarts (n : Z) (s : State) : State :=
  mkState (g_queue s) (g_task_gen s) (g_task_rx s) (g_hb_gen s) (g_hb_rx s) (g_hb_sup s)
          (g_flag_gen_ok s) (g_flag_rx_ok s) (value s) (timeouts s) n.

(** ** Calls to the host runtime *)

(** The task functions a task can be created with. *)
Inductive TaskFn : Type := TaskGenerator | TaskReceiver.

(** One constructor per [PRINTF] of the three tasks, with its arguments. *)
Inductive Msg : Type :=
| MsgGenQueued (v : Z)
| MsgGenDropped (v : Z)
| MsgGenLowStack (watermark : Z)
| MsgRxMallocFailed
| MsgRxTransmit (v : Z)
| MsgRxTimeout (ms count : Z)
| MsgRxWarn
| MsgRxSoftRecover
| MsgRxResetQueue
| MsgRxFail
| MsgRxLowHeap (free_heap min_heap : Z)
| MsgRxExit
| MsgSupStatus (gen_ok : bool) (hb_gen : Z) (rx_ok : bool) (hb_rx : Z)
| MsgSupGenStalled
| MsgSupRxStalled
| MsgSupCriticalAfterRestarts (free_heap : Z)
| MsgSupHeap (free_heap min_heap : Z)
| MsgSupMinHeapCritical.

Inductive Call : Type :=
| CallPrintf (m : Msg)
| CallQueueReset
| CallWdtAdd
| CallWdtReset
| CallTaskDelay (ticks : Z)
| CallTaskDelete (h : TaskHandle_t)
| CallTaskCreate (f : TaskFn)
| CallRestart.

(** ** The monad of task code *)

(** How a computation can stop short: [break] out of the task loop, the
    task deleting itself, or the device restarting. *)
Inductive Exit : Type := Break | TaskDeleted | DeviceRestart.

Inductive Res (A : Type) : Type :=
| Ok (a : A)
| Halt (x : Exit).

Arguments Ok {A} a.
Arguments Halt {A} x.

Definition M (A : Type) : Type := State -> Res A * State * list Call.

Definition ret {A : Type} (a : A) : M A := fun s => (Ok a, s, []).

Definition bind {A B : Type} (m : M A) (k : A -> M B) : M B :=
  fun s =>
    match m s with
    | (Ok a, s1, t1) => let '(r, s2, t2) := k a s1 in (r, s2, t1 ++ t2)
    | (Halt x, s1, t1) => (Halt x, s1, t1)
    end.

Notation "x <- m ;; k" := (bind m (fun x => k))
  (at level 61, m at next level, right associativity).
Notation "m ;; k" := (bind m (fun _ => k))
  (at level 61, right associativity).

Definition gets {A : Type} (f : State -> A) : M A := fun s => (Ok (f s), s, []).

Definition modify (f : State -> State) : M unit := fun s => (Ok tt, f s, []).

Definition call (c : Call) : M unit := fun s => (Ok tt, s, [c]).

Definition halt {A : Type} (x : Exit) : M A := fun s => (Halt x, s, []).

Definition when (b : bool) (m : M unit) : M unit := if b then m else ret tt.

(** [for (;;) body], run for as many iterations as the schedule [es]
    supplies inputs for; it stops earlier when an iteration halts. *)
Fixpoint loop {E : Type} (body : E -> M unit) (es : list E) : M unit :=
  match es with
  | [] => ret tt
  | e :: es' => body e ;; loop body es'
  end.

(** The code after a loop is reached only through [break]. *)
Definition on_break (m : M unit) (k : M unit) : M unit :=
  fun s =>
    match m s with
    | (Halt Break, s1, t1) => let '(r, s2, t2) := k s1 in (r, s2, t1 ++ t2)
    | other => other
    end.

Definition result_of {A : Type} (r : Res A * State * list Call) : Res A := fst (fst r).
Definition state_of {A : Type} (r : Res A * State * list Call) : State := snd (fst r).
Definition trace_of {A : Type} (r : Res A * State * list Call) : list Call := snd r.

(** ** The queue *)

(** Modelled from the spec: the FreeRTOS queue functions [xQueueSend],
    [xQueueReceive] and [xQueueReset] are called by the tasks but are not
    part of the source file.  They follow the contract of the bounded
    channel: a send with a zero wait fails exactly when the queue holds
    [QUEUE_LEN] items and otherwise appends the item; a timed receive
    returns the oldest item, or, on an empty queue, the item that arrives
    before the deadline if one does ([arrival]) and a timeout otherwise;
    a reset discards all buffered items. *)
Definition queue_send (q : list Z) (v : Z) : bool * list Z :=
  if (length q <? QUEUE_LEN)%nat then (true, q ++ [v]) else (false, q).

Definition queue_receive (q : list Z) (arrival : option Z) : option Z * list Z :=
  match q with
  | v :: q' => (Some v, q')
  | [] => (arrival, [])
  end.

(** [xQueueSend(g_queue, &v, 0) == pdTRUE] *)
Definition xQueueSend (v : Z) : M bool :=
  q <- gets g_queue ;;
  let '(ok, q') := queue_send q v in
  modify (set_g_queue q') ;;
  ret ok.

(** [xQueueReceive(g_queue, &rx_val, ticks) == pdTRUE], with the value
    received; [None] is the timeout. *)
Definition xQueueReceive (arrival : option Z) : M (option Z) :=
  q <- gets g_queue ;;
  let '(r, q') := queue_receive q arrival in
  modify (set_g_queue q') ;;
  ret r.

Definition xQueueReset : M unit :=
  modify (set_g_queue []) ;;
  call CallQueueReset.

(** ** Other host calls *)

Definition PRINTF (m : Msg) : M unit := call (CallPrintf m).

Definition esp_task_wdt_add : M unit := call CallWdtAdd.

Definition esp_task_wdt_reset : M unit := call CallWdtReset.

Definition vTaskDelay (ticks : Z) : M unit := call (CallTaskDelay ticks).

(** [vTaskDelete(NULL)] ends the calling task; with a handle it deletes
    that other task and returns. *)
Definition vTaskDelete (h : TaskHandle_t) : M unit :=
  call (CallTaskDelete h) ;;
  match h with
  | None => halt TaskDeleted
  | Some _ => ret tt
  end.

(** [esp_restart()] does not return. *)
Definition esp_restart : M unit :=
  call CallRestart ;;
  halt DeviceRestart.

(** [xTaskCreatePinnedToCore(f, ..., &handle, 1)]: [created] is the handle
    of the new task, or [None] when the runtime could not create it, in
    which case the handle variable is not written.  The return value is
    ignored by the callers modelled here. *)
Definition xTaskCreatePinnedToCore (f : TaskFn) (set_handle : TaskHandle_t -> State -> State)
    (created : TaskHandle_t) : M unit :=
  call (CallTaskCreate f) ;;
  match created with
  | Some h => modify (set_handle (Some h))
  | None => ret tt
  end.

(** ** Inputs of one loop iteration of each task *)

Record GenEnv : Type := mkGenEnv {
  gen_tick : Z;                (* xTaskGetTickCount() *)
  gen_watermark : Z            (* uxTaskGetStackHighWaterMark(NULL) *)
}.

Record RxEnv : Type := mkRxEnv {
  rx_arrival : option Z;       (* message arriving while the receive waits on an empty queue *)
  rx_tick : Z;                 (* xTaskGetTickCount() *)
  rx_malloc_ok : bool;         (* malloc(sizeof(int)) != NULL *)
  rx_free_heap : Z;            (* xPortGetFreeHeapSize() *)
  rx_min_heap : Z              (* xPortGetMinimumEverFreeHeapSize() *)
}.

Record SupEnv : Type := mkSupEnv {
  sup_now : Z;                 (* xTaskGetTickCount() at the start of the tick *)
  sup_created_gen : TaskHandle_t;  (* task created by the generator recreation *)
  sup_tick_gen : Z;            (* xTaskGetTickCount() after recreating the generator *)
  sup_created_rx : TaskHandle_t;   (* task created by the receiver recreation *)
  sup_tick_rx : Z;             (* xTaskGetTickCount() after recreating the receiver *)
  sup_free_heap_rx : Z;        (* xPortGetFreeHeapSize() inside the recreation branch *)
  sup_free_heap : Z;           (* xPortGetFreeHeapSize() of the heap telemetry *)
  sup_min_heap : Z             (* xPortGetMinimumEverFreeHeapSize() *)
}.

Section Tasks.

(** The macro [pdMS_TO_TICKS] comes from the FreeRTOS configuration, which
    is not part of the source file. *)
Variable pdMS_TO_TICKS : Z -> Z.

Definition STALL_TICKS (ms : Z) : Z := pdMS_TO_TICKS ms.

(** *** Module 1: [task_generator] *)

Definition task_generator_body (e : GenEnv) : M unit :=
  v <- gets value ;;
  ok <- xQueueSend v ;;
  (if ok then
     modify (set_g_hb_gen (gen_tick e)) ;;
     modify (set_g_flag_gen_ok true) ;;
     PRINTF (MsgGenQueued v) ;;
     modify (set_value (int_incr v))
   else
     PRINTF (MsgGenDropped v) ;;
     modify (set_value (int_incr v))) ;;
  when (gen_watermark e <? 100)
       (PRINTF (MsgGenLowStack (gen_watermark e))) ;;
  esp_task_wdt_reset ;;
  vTaskDelay (STALL_TICKS GEN_PERIOD_MS).

Definition task_generator (es : list GenEnv) : M unit :=
  esp_task_wdt_add ;;
  modify (set_value 0) ;;
  loop task_generator_body es.

(** *** Module 2: [task_receiver] *)

(** The escalation on a timeout, after [timeouts++]. *)
Definition rx_escalate : M unit :=
  n <- gets timeouts ;;
  PRINTF (MsgRxTimeout RX_TIMEOUT_MS n) ;;
  if n =? RX_WARN_THRESHOLD then
    PRINTF MsgRxWarn
  else if n =? RX_RECOVER_SOFT then
    PRINTF MsgRxSoftRecover
  else if n =? RX_RECOVER_RESET_Q then
    PRINTF MsgRxResetQueue ;;
    xQueueReset
  else if n >=? RX_FAIL_THRESHOLD then
    PRINTF MsgRxFail ;;
    modify (set_g_flag_rx_ok false) ;;
    halt Break
  else ret tt.

Definition task_receiver_body (e : RxEnv) : M unit :=
  r <- xQueueReceive (rx_arrival e) ;;
  match r with
  | Some rx_val =>
      modify (set_timeouts 0) ;;
      modify (set_g_hb_rx (rx_tick e)) ;;
      modify (set_g_flag_rx_ok true) ;;
      if rx_malloc_ok e then
        PRINTF (MsgRxTransmit rx_val)
      else
        PRINTF MsgRxMallocFailed ;;
        modify (set_g_flag_rx_ok false) ;;
        halt Break
  | None =>
      n <- gets timeouts ;;
      modify (set_timeouts (int_incr n)) ;;
      rx_escalate
  end ;;
  when (rx_free_heap e <? 20 * 1024)
       (PRINTF (MsgRxLowHeap (rx_free_heap e) (rx_min_heap e))) ;;
  esp_task_wdt_reset ;;
  vTaskDelay (pdMS_TO_TICKS 50).

(** The loop of [task_receiver] and the code after it. *)
Definition task_receiver_loop (es : list RxEnv) : M unit :=
  on_break (loop task_receiver_body es)
           (PRINTF MsgRxExit ;;
            vTaskDelete None).

Definition task_receiver (es : list RxEnv) : M unit :=
  esp_task_wdt_add ;;
  modify (set_timeouts 0) ;;
  task_receiver_loop es.

(** *** Module 3: [task_supervisor] *)

(** [(now - hb) > STALL_TICKS(k * SUP_PERIOD_MS)] *)
Definition stalled (k now hb : Z) : bool :=
  u32_sub now hb >? STALL_TICKS (k * SUP_PERIOD_MS).

Definition gen_stalled (now : Z) (s : State) : bool := stalled 3 now (g_hb_gen s).

(** [g_task_rx == NULL || (now - g_hb_rx) > STALL_TICKS(5 * SUP_PERIOD_MS)] *)
Definition rx_absent_or_stalled (now : Z) (s : State) : bool :=
  match g_task_rx s with
  | None => true
  | Some _ => stalled 5 now (g_hb_rx s)
  end.

Definition sup_recreate_gen (e : SupEnv) : M unit :=
  PRINTF MsgSupGenStalled ;;
  h <- gets g_task_gen ;;
  match h with
  | Some _ => vTaskDelete h ;; modify (set_g_task_gen None)
  | None => ret tt
  end ;;
  xTaskCreatePinnedToCore TaskGenerator set_g_task_gen (sup_created_gen e) ;;
  modify (set_g_hb_gen (sup_tick_gen e)) ;;
  modify (set_g_flag_gen_ok false).

Definition sup_recreate_rx (e : SupEnv) : M unit :=
  PRINTF MsgSupRxStalled ;;
  h <- gets g_task_rx ;;
  match h with
  | Some _ => vTaskDelete h ;; modify (set_g_task_rx None)
  | None => ret tt
  end ;;
  xTaskCreatePinnedToCore TaskReceiver set_g_task_rx (sup_created_rx e) ;;
  n <- gets rx_restarts ;;
  modify (set_rx_restarts (int_incr n)) ;;
  modify (set_g_hb_rx (sup_tick_rx e)) ;;
  modify (set_g_flag_rx_ok false) ;;
  n' <- gets rx_restarts ;;
  when (n' >=? 3)
       (when (sup_free_heap_rx e <? 16 * 1024)
             (PRINTF (MsgSupCriticalAfterRestarts (sup_free_heap_rx e)) ;;
              esp_restart)).

Definition task_supervisor_body (e : SupEnv) : M unit :=
  vTaskDelay (STALL_TICKS SUP_PERIOD_MS) ;;
  modify (set_g_hb_sup (sup_now e)) ;;
  s <- gets (fun s => s) ;;
  PRINTF (MsgSupStatus (g_flag_gen_ok s) (g_hb_gen s) (g_flag_rx_ok s) (g_hb_rx s)) ;;
  stale_gen <- gets (gen_stalled (sup_now e)) ;;
  when stale_gen (sup_recreate_gen e) ;;
  stale_rx <- gets (rx_absent_or_stalled (sup_now e)) ;;
  when stale_rx (sup_recreate_rx e) ;;
  PRINTF (MsgSupHeap (sup_free_heap e) (sup_min_heap e)) ;;
  when (sup_min_heap e <? 8 * 1024)
       (PRINTF MsgSupMinHeapCritical ;;
        esp_restart) ;;
  esp_task_wdt_reset.

Definition task_supervisor (es : list SupEnv) : M unit :=
  esp_task_wdt_add ;;
  modify (set_rx_restarts 0) ;;
  loop task_supervisor_body es.

End Tasks.

(** ** Views of a trace *)

(** The steps of the receiver's escalation: the timeout report (which
    carries the count), the warning, the soft recovery, the queue reset and
    the task's deletion of itself. *)
Definition is_escalation (c : Call) : bool :=
  match c with
  | CallPrintf (MsgRxTimeout _ _)
  | CallPrintf MsgRxWarn
  | CallPrintf MsgRxSoftRecover
  | CallQueueReset
  | CallTaskDelete None => true
  | _ => false
  end.

Definition escalation (tr : list Call) : list Call := filter is_escalation tr.

(** The generator's reports of the outcome of each send. *)
Definition is_send_report (c : Call) : bool :=
  match c with
  | CallPrintf (MsgGenQueued _)
  | CallPrintf (MsgGenDropped _) => true
  | _ => false
  end.

Definition send_reports (tr : list Call) : list Call := filter is_send_report tr.

(** The restart of the supervisor's "many recreations and little memory"
    heuristic is the one announced by [MsgSupCriticalAfterRestarts]. *)
Definition is_exhaustion_report (c : Call) : bool :=
  match c with
  | CallPrintf (MsgSupCriticalAfterRestarts _) => true
  | _ => false
  end.

Definition exhaustion_restart (tr : list Call) : bool := existsb is_exhaustion_report tr.

Definition is_restart (c : Call) : bool :=
  match c with
  | CallRestart => true
  | _ => false
  end.

Definition restarted (tr : list Call) : bool := existsb is_restart tr.

Definition is_create (f : TaskFn) (c : Call) : bool :=
  match c, f with
  | CallTaskCreate TaskGenerator, TaskGenerator => true
  | CallTaskCreate TaskReceiver, TaskReceiver => true
  | _, _ => false
  end.

Definition created (f : TaskFn) (tr : list Call) : bool := existsb (is_create f) tr.

(** The values an [int] counter takes in [n] increments from [v]. *)
Fixpoint counting (n : nat) (v : Z) : list Z :=
  match n with
  | O => []
  | S n' => v :: counting n' (int_incr v)
  end.

(** ** Concrete inputs used in the examples *)

(** [pdMS_TO_TICKS] at a tick rate of 100 Hz. *)
Definition ticks_100Hz (ms : Z) : Z := wrap_u32 (ms * 100 / 1000).

(** The globals after [app_main] created the tasks with handles 1 and 2. *)
Definition booted : State :=
  mkState [] (Some 1%nat) (Some 2%nat) 0 0 0 false false 0 0 0.

(** A receive that times out, with plenty of heap. *)
Definition rx_timeout_env : RxEnv := mkRxEnv None 0 true 200000 150000.

(** A receive of [v] at tick [t]. *)
Definition rx_arrival_env (v t : Z) (malloc_ok : bool) : RxEnv :=
  mkRxEnv (Some v) t malloc_ok 200000 150000.

(** Generator iterations every 15 ticks starting at tick [t]. *)
Fixpoint gen_envs (n : nat) (t : Z) : list GenEnv :=
  match n with
  | O => []
  | S n' => mkGenEnv t 3000 :: gen_envs n' (t + 15)
  end.

(** ** Further views of a trace *)

(** How many calls of a trace satisfy [f]. *)
Definition count_calls (f : Call -> bool) (tr : list Call) : nat := length (filter f tr).

Definition is_wdt_reset (c : Call) : bool :=
  match c with
  | CallWdtReset => true
  | _ => false
  end.

Definition is_queue_reset (c : Call) : bool :=
  match c with
  | CallQueueReset => true
  | _ => false
  end.

(** Task lifecycle calls and the device restart. *)
Definition is_lifecycle (c : Call) : bool :=
  match c with
  | CallTaskDelete _ | CallTaskCreate _ | CallRestart => true
  | _ => false
  end.

(** The values the receiver reports as transmitted. *)
Definition transmitted (tr : list Call) : list Z :=
  flat_map (fun c => match c with
                     | CallPrintf (MsgRxTransmit v) => [v]
                     | _ => []
                     end) tr.

(** The largest [int]. *)
Definition INT_MAX : Z := 2 ^ 31 - 1.

(** ** Runs of timeouts *)

(** The outcomes [l] of successive receives ([None] is a timeout) hold
    five timeouts in a row. *)
Definition five_timeouts (l : list (option Z)) : Prop :=
  exists pre post, l = pre ++ repeat None 5 ++ post.

(** After [c] timeouts in a row, the outcomes [l] complete a run of five:
    they start with the [5 - c] that are missing, or hold a run of their
    own. *)
Definition timeouts_pending (c : nat) (l : list (option Z)) : Prop :=
  firstn (5 - c) l = repeat None (5 - c) \/ five_timeouts l.

(** ** Views of the generator's trace *)

(** The values the generator reports as queued. *)
Definition queued (tr : list Call) : list Z :=
  flat_map (fun c => match c with
                     | CallPrintf (MsgGenQueued v) => [v]
                     | _ => []
                     end) tr.

(** The values the generator tried to send, queued or dropped. *)
Definition attempted (tr : list Call) : list Z :=
  flat_map (fun c => match c with
                     | CallPrintf (MsgGenQueued v) | CallPrintf (MsgGenDropped v) => [v]
                     | _ => []
                     end) tr.

(** ** Boot: [app_main] *)

Definition GEN_TASK_PRIO : Z := 6.
Definition RX_TASK_PRIO : Z := 5.
Definition SUP_TASK_PRIO : Z := 4.
Definition LOG_TASK_PRIO : Z := 2.

Definition GEN_STACK_WORDS : Z := 4096.
Definition RX_STACK_WORDS : Z := 4096.
Definition SUP_STACK_WORDS : Z := 4096.
Definition LOG_STACK_WORDS : Z := 3072.

(** [sizeof(int)] *)
Definition QUEUE_ITEM_SIZE : Z := 4.

Definition WDT_TIMEOUT_SECONDS : Z := 5.

(** The four task functions [app_main] creates tasks with. *)
Inductive BootTask : Type := BootGenerator | BootReceiver | BootSupervisor | BootLogger.

Inductive BootMsg : Type :=
| MsgBootStart
| MsgBootQueueFailed
| MsgBootTasksFailed
| MsgBootRunning.

Inductive BootCall : Type :=
| BootPrintf (m : BootMsg)
| BootWdtDeinit
| BootWdtInit (timeout_ms : Z) (trigger_panic : bool)
| BootQueueCreate (len : nat) (item_size : Z)
| BootTaskCreate (f : BootTask) (stack_words prio core : Z)
| BootRestart.

(** What the runtime answers during boot: whether [xQueueCreate] returned a
    queue, and the task each [xTaskCreatePinnedToCore] created ([None]
    when it did not return [pdPASS]). *)
Record BootEnv : Type := mkBootEnv {
  boot_queue_ok : bool;
  boot_gen : TaskHandle_t;
  boot_rx : TaskHandle_t;
  boot_sup : TaskHandle_t;
  boot_log : TaskHandle_t
}.

(** The globals [app_main] writes: those of [State], whether [g_queue] is
    a queue, and the two handles the tasks never read. *)
Record Boot : Type := mkBoot {
  boot_state : State;
  g_queue_created : bool;
  g_task_sup : TaskHandle_t;
  g_task_log : TaskHandle_t
}.

(** The static initialisers of the globals. *)
Definition initial_state : State :=
  mkState [] None None 0 0 0 false false 0 0 0.

(** [xTaskCreatePinnedToCore(...) == pdPASS] as an [int]. *)
Definition created_ok (created : TaskHandle_t) : Z :=
  match created with
  | Some _ => 1
  | None => 0
  end.

Section Boot.

(** The constant [pdPASS] comes from the FreeRTOS headers, which are not
    part of the source file. *)
Variable pdPASS : Z.

Definition app_main (e : BootEnv) : Res unit * Boot * list BootCall :=
  let init :=
    [BootPrintf MsgBootStart; BootWdtDeinit;
     BootWdtInit (WDT_TIMEOUT_SECONDS * 1000) true;
     BootQueueCreate QUEUE_LEN QUEUE_ITEM_SIZE] in
  if negb (boot_queue_ok e) then
    (Halt DeviceRestart, mkBoot initial_state false None None,
     init ++ [BootPrintf MsgBootQueueFailed; BootRestart])
  else
    let ok := pdPASS in
    let ok := Z.land ok (created_ok (boot_gen e)) in
    let ok := Z.land ok (created_ok (boot_rx e)) in
    let ok := Z.land ok (created_ok (boot_sup e)) in
    let globals :=
      mkBoot (set_g_task_rx (boot_rx e) (set_g_task_gen (boot_gen e) initial_state))
             true (boot_sup e) (boot_log e) in
    let creates :=
      [BootTaskCreate BootGenerator GEN_STACK_WORDS GEN_TASK_PRIO 1;
       BootTaskCreate BootReceiver RX_STACK_WORDS RX_TASK_PRIO 1;
       BootTaskCreate BootSupervisor SUP_STACK_WORDS SUP_TASK_PRIO 1;
       BootTaskCreate BootLogger LOG_STACK_WORDS LOG_TASK_PRIO 1] in
    if ok =? 0 then
      (Halt DeviceRestart, globals,
       init ++ creates ++ [BootPrintf MsgBootTasksFailed; BootRestart])
    else
      (Ok tt, globals, init ++ creates ++ [BootPrintf MsgBootRunning]).

End Boot.

(** The task functions of the creations in a boot trace. *)
Definition boot_creates (tr : list BootCall) : list BootTask :=
  flat_map (fun c => match c with
                     | BootTaskCreate f _ _ _ => [f]
                     | _ => []
                     end) tr.

Definition is_some {A : Type} (o : option A) : bool :=
  match o with
  | Some _ => true
  | None => false
  end.

(** * Properties *)

(** ** Tactics *)

(** Runs one supervisor tick on every combination of handles and branch
    conditions. *)
Ltac supervisor_cases :=
  repeat match goal with
         | h : TaskHandle_t |- _ => destruct h
         end;
  cbv -[stalled Z.ltb Z.geb int_incr];
  repeat match goal with
         | H : ?b = _ |- context [if ?b then _ else _] =>
             rewrite H; cbv -[stalled Z.ltb Z.geb int_incr]
         | |- context [if ?b then _ else _] =>
             destruct b eqn:?; cbv -[stalled Z.ltb Z.geb int_incr]
         end.

(** ** Running computations *)

Lemma bind_ok {A B : Type} (m : M A) (k : A -> M B) s a s1 t1 :
  m s = (Ok a, s1, t1) ->
  bind m k s = (result_of (k a s1), state_of (k a s1), t1 ++ trace_of (k a s1)).
Proof.
  intros Hm. unfold bind. rewrite Hm.
  destruct (k a s1) as [[r s2] t2]. reflexivity.
Qed.

Lemma bind_halt {A B : Type} (m : M A) (k : A -> M B) s x s1 t1 :
  m s = (Halt x, s1, t1) ->
  bind m k s = (Halt x, s1, t1).
Proof.
  intros Hm. unfold bind. now rewrite Hm.
Qed.

Lemma run_eta {A : Type} (r : Res A * State * list Call) :
  r = (result_of r, state_of r, trace_of r).
Proof.
  now destruct r as [[? ?] ?].
Qed.

Lemma loop_cons_ok {E : Type} (body : E -> M unit) e es s :
  result_of (body e s) = Ok tt ->
  loop body (e :: es) s =
  (result_of (loop body es (state_of (body e s))),
   state_of (loop body es (state_of (body e s))),
   trace_of (body e s) ++ trace_of (loop body es (state_of (body e s)))).
Proof.
  intros Hr. simpl.
  apply (bind_ok (body e) (fun _ => loop body es) s tt).
  rewrite (run_eta (body e s)) at 1. now rewrite Hr.
Qed.

Lemma loop_cons_halt {E : Type} (body : E -> M unit) e es s x :
  result_of (body e s) = Halt x ->
  loop body (e :: es) s = (Halt x, state_of (body e s), trace_of (body e s)).
Proof.
  intros Hr. simpl.
  apply (bind_halt (body e) (fun _ => loop body es) s x).
  rewrite (run_eta (body e s)) at 1. now rewrite Hr.
Qed.

Lemma loop_cons_run {E : Type} (body : E -> M unit) e es s s1 t1 :
  body e s = (Ok tt, s1, t1) ->
  loop body (e :: es) s =
  (result_of (loop body es s1), state_of (loop body es s1),
   t1 ++ trace_of (loop body es s1)).
Proof.
  intros Hb. rewrite loop_cons_ok; now rewrite Hb.
Qed.

Lemma loop_cons_stop {E : Type} (body : E -> M unit) e es s x s1 t1 :
  body e s = (Halt x, s1, t1) ->
  loop body (e :: es) s = (Halt x, s1, t1).
Proof.
  intros Hb. rewrite (loop_cons_halt body e es s x); now rewrite Hb.
Qed.

Lemma on_break_run (m k : M unit) s s1 t1 :
  m s = (Halt Break, s1, t1) ->
  on_break m k s = (result_of (k s1), state_of (k s1), t1 ++ trace_of (k s1)).
Proof.
  intros Hm. unfold on_break. rewrite Hm.
  destruct (k s1) as [[r s2] t2]. reflexivity.
Qed.

Lemma loop_app {E : Type} (body : E -> M unit) es1 es2 s s1 t1 :
  loop body es1 s = (Ok tt, s1, t1) ->
  loop body (es1 ++ es2) s =
  (result_of (loop body es2 s1), state_of (loop body es2 s1),
   t1 ++ trace_of (loop body es2 s1)).
Proof.
  revert s s1 t1. induction es1 as [|e es1 IH]; intros s s1 t1 Hrun.
  - simpl in Hrun. inversion Hrun; subst. simpl. apply run_eta.
  - simpl app. destruct (body e s) as [[[[]|x] s'] t'] eqn:Hb.
    + rewrite (loop_cons_run _ _ _ _ _ _ Hb) in Hrun.
      rewrite (loop_cons_run _ _ _ _ _ _ Hb).
      destruct (loop body es1 s') as [[r1 s1'] t1'] eqn:Hl.
      unfold result_of, state_of, trace_of in Hrun. simpl in Hrun.
      inversion Hrun; subst.
      rewrite (IH _ _ _ Hl).
      unfold result_of, state_of, trace_of. simpl. now rewrite app_assoc.
    + rewrite (loop_cons_stop _ _ _ _ _ _ _ Hb) in Hrun. discriminate.
Qed.

(** ** The receiver *)

(** What one iteration does to the timeout counter: a receive sets it to
    zero, a timeout increments it, whatever the escalation step. *)
Lemma task_receiver_body_timeouts tk e s :
  timeouts (state_of (task_receiver_body tk e s)) =
  match fst (queue_receive (g_queue s) (rx_arrival e)) with
  | Some _ => 0
  | None => int_incr (timeouts s)
  end.
Proof.
  destruct s as [q hg hr bg br bs fg fr v n k], e as [a t m fh mh].
  destruct q as [|x q]; [destruct a as [x|]|]; try destruct m;
    cbv -[Z.ltb Z.eqb Z.geb int_incr];
    repeat match goal with
           | |- context [if ?b then _ else _] =>
               destruct b; cbv -[Z.ltb Z.eqb Z.geb int_incr]
           end; reflexivity.
Qed.

(** C5: a successful receive sets the consecutive-timeout counter to 0,
    whatever its value was. *)
Theorem receive_resets_timeouts tk e s v :
  fst (queue_receive (g_queue s) (rx_arrival e)) = Some v ->
  timeouts (state_of (task_receiver_body tk e s)) = 0.
Proof.
  intros Hrx. rewrite task_receiver_body_timeouts. now rewrite Hrx.
Qed.

Lemma receive_resets_timeouts_witness :
  timeouts (set_timeouts 4 booted) = 4 /\
  timeouts (state_of (task_receiver_body ticks_100Hz (rx_arrival_env 7 120 true)
                                         (set_timeouts 4 booted))) = 0.
Proof.
  split; [reflexivity|].
  apply (receive_resets_timeouts ticks_100Hz (rx_arrival_env 7 120 true)
                                 (set_timeouts 4 booted) 7).
  reflexivity.
Defined.

(** The escalation step taken when the count reaches [n], for a count
    below the failure threshold. *)
Lemma task_receiver_body_timeout tk e s n :
  g_queue s = [] ->
  rx_arrival e = None ->
  timeouts s = n ->
  0 <= n < 4 ->
  exists t,
    task_receiver_body tk e s = (Ok tt, set_timeouts (n + 1) s, t) /\
    escalation t =
      CallPrintf (MsgRxTimeout RX_TIMEOUT_MS (n + 1)) ::
      (if n + 1 =? RX_WARN_THRESHOLD then [CallPrintf MsgRxWarn]
       else if n + 1 =? RX_RECOVER_SOFT then [CallPrintf MsgRxSoftRecover]
       else if n + 1 =? RX_RECOVER_RESET_Q then [CallQueueReset]
       else []).
Proof.
  intros Hq Ha Hn Hrange.
  destruct s as [q hg hr bg br bs fg fr v k rs], e as [a t m fh mh].
  simpl in *. subst q a k.
  unfold task_receiver_body. simpl rx_free_heap.
  assert (Hcases : n = 0 \/ n = 1 \/ n = 2 \/ n = 3) by lia.
  destruct (fh <? 20 * 1024);
    destruct Hcases as [-> | [-> | [-> | ->]]];
    eexists; split; reflexivity.
Qed.

(** The timeout that brings the count to the failure threshold. *)
Lemma task_receiver_body_fail tk e s :
  g_queue s = [] ->
  rx_arrival e = None ->
  timeouts s = 4 ->
  task_receiver_body tk e s =
  (Halt Break, set_g_flag_rx_ok false (set_timeouts 5 s),
   [CallPrintf (MsgRxTimeout RX_TIMEOUT_MS 5); CallPrintf MsgRxFail]).
Proof.
  intros Hq Ha Hn.
  destruct s as [q hg hr bg br bs fg fr v k rs], e as [a t m fh mh].
  simpl in *. subst q a k. reflexivity.
Qed.

(** C1: a receiver that starts with a timeout count of 0 and meets five
    receive timeouts in a row warns once at count 2, recovers softly once
    at count 3, resets the queue once at count 4 and ends itself once at
    count 5 with its health flag false, in this order and nothing twice. *)
Theorem five_timeouts_escalate tk es s :
  length es = 5%nat ->
  Forall (fun e => rx_arrival e = None) es ->
  g_queue s = [] ->
  let r := task_receiver tk es s in
  result_of r = Halt TaskDeleted /\
  escalation (trace_of r) =
    [CallPrintf (MsgRxTimeout RX_TIMEOUT_MS 1);
     CallPrintf (MsgRxTimeout RX_TIMEOUT_MS 2); CallPrintf MsgRxWarn;
     CallPrintf (MsgRxTimeout RX_TIMEOUT_MS 3); CallPrintf MsgRxSoftRecover;
     CallPrintf (MsgRxTimeout RX_TIMEOUT_MS 4); CallQueueReset;
     CallPrintf (MsgRxTimeout RX_TIMEOUT_MS 5); CallTaskDelete None] /\
  g_flag_rx_ok (state_of r) = false /\
  timeouts (state_of r) = 5.
Proof.
  intros Hlen Hto Hq.
  destruct es as [|e1 [|e2 [|e3 [|e4 [|e5 [|]]]]]]; try discriminate.
  repeat rewrite Forall_cons_iff in Hto.
  destruct Hto as (A1 & A2 & A3 & A4 & A5 & _).
  destruct (task_receiver_body_timeout tk e1 (set_timeouts 0 s) 0)
    as (t1 & E1 & F1); auto; try lia.
  destruct (task_receiver_body_timeout tk e2 (set_timeouts 1 (set_timeouts 0 s)) 1)
    as (t2 & E2 & F2); auto; try lia.
  destruct (task_receiver_body_timeout tk e3
              (set_timeouts 2 (set_timeouts 1 (set_timeouts 0 s))) 2)
    as (t3 & E3 & F3); auto; try lia.
  destruct (task_receiver_body_timeout tk e4
              (set_timeouts 3 (set_timeouts 2 (set_timeouts 1 (set_timeouts 0 s)))) 3)
    as (t4 & E4 & F4); auto; try lia.
  pose proof (task_receiver_body_fail tk e5
                (set_timeouts 4 (set_timeouts 3 (set_timeouts 2
                   (set_timeouts 1 (set_timeouts 0 s))))) Hq A5 eq_refl) as E5.
  simpl Z.add in *.
  assert (Hloop : loop (task_receiver_body tk) [e1; e2; e3; e4; e5] (set_timeouts 0 s) =
                  (Halt Break,
                   set_g_flag_rx_ok false
                     (set_timeouts 5 (set_timeouts 4 (set_timeouts 3 (set_timeouts 2
                        (set_timeouts 1 (set_timeouts 0 s)))))),
                   t1 ++ t2 ++ t3 ++ t4 ++
                   [CallPrintf (MsgRxTimeout RX_TIMEOUT_MS 5); CallPrintf MsgRxFail])).
  { rewrite (loop_cons_run _ _ _ _ _ _ E1), (loop_cons_run _ _ _ _ _ _ E2),
      (loop_cons_run _ _ _ _ _ _ E3), (loop_cons_run _ _ _ _ _ _ E4),
      (loop_cons_stop _ _ _ _ _ _ _ E5).
    reflexivity. }
  intros r. subst r. unfold task_receiver, task_receiver_loop.
  rewrite (bind_ok _ _ s tt s [CallWdtAdd]) by reflexivity.
  rewrite (bind_ok _ _ s tt (set_timeouts 0 s) []) by reflexivity.
  rewrite (on_break_run _ _ _ _ _ Hloop).
  unfold result_of, state_of, trace_of. cbn [fst snd].
  repeat split.
  unfold escalation in *. cbn [app filter is_escalation].
  repeat rewrite filter_app. rewrite F1, F2, F3, F4. reflexivity.
Qed.

Lemma five_timeouts_escalate_witness :
  let r := task_receiver ticks_100Hz (repeat rx_timeout_env 5) booted in
  result_of r = Halt TaskDeleted /\
  escalation (trace_of r) =
    [CallPrintf (MsgRxTimeout RX_TIMEOUT_MS 1);
     CallPrintf (MsgRxTimeout RX_TIMEOUT_MS 2); CallPrintf MsgRxWarn;
     CallPrintf (MsgRxTimeout RX_TIMEOUT_MS 3); CallPrintf MsgRxSoftRecover;
     CallPrintf (MsgRxTimeout RX_TIMEOUT_MS 4); CallQueueReset;
     CallPrintf (MsgRxTimeout RX_TIMEOUT_MS 5); CallTaskDelete None] /\
  g_flag_rx_ok (state_of r) = false /\
  timeouts (state_of r) = 5.
Proof.
  apply (five_timeouts_escalate ticks_100Hz (repeat rx_timeout_env 5) booted).
  - reflexivity.
  - repeat constructor.
  - reflexivity.
Defined.

(** C9: when [malloc] fails after a receive, the receiver clears its health
    flag and ends at once: the iteration reports no timeout, takes no
    escalation step, does not reach its heap telemetry or its watchdog
    reset, and no further iteration runs. *)
Theorem malloc_failure_ends_receiver tk e es s v :
  fst (queue_receive (g_queue s) (rx_arrival e)) = Some v ->
  rx_malloc_ok e = false ->
  let r := task_receiver_loop tk (e :: es) s in
  result_of r = Halt TaskDeleted /\
  g_flag_rx_ok (state_of r) = false /\
  trace_of r = [CallPrintf MsgRxMallocFailed; CallPrintf MsgRxExit; CallTaskDelete None].
Proof.
  intros Hrx Hmalloc.
  assert (Hbody : task_receiver_body tk e s =
                  (Halt Break,
                   set_g_flag_rx_ok false
                     (set_g_flag_rx_ok true
                        (set_g_hb_rx (rx_tick e)
                           (set_timeouts 0
                              (set_g_queue (snd (queue_receive (g_queue s) (rx_arrival e))) s)))),
                   [CallPrintf MsgRxMallocFailed])).
  { destruct s as [q hg hr bg br bs fg fr x k rs], e as [a t m fh mh].
    simpl in *. subst m.
    destruct q as [|y q]; simpl in Hrx; [subst a|]; reflexivity. }
  unfold task_receiver_loop, on_break.
  rewrite (loop_cons_halt (task_receiver_body tk) e es s Break)
    by (now rewrite Hbody).
  rewrite Hbody. cbn. auto.
Qed.

Lemma malloc_failure_ends_receiver_witness :
  let r := task_receiver_loop ticks_100Hz
             [rx_arrival_env 7 120 false; rx_timeout_env] booted in
  result_of r = Halt TaskDeleted /\
  g_flag_rx_ok (state_of r) = false /\
  trace_of r = [CallPrintf MsgRxMallocFailed; CallPrintf MsgRxExit; CallTaskDelete None].
Proof.
  apply (malloc_failure_ends_receiver ticks_100Hz (rx_arrival_env 7 120 false)
                                      [rx_timeout_env] booted 7);
    reflexivity.
Defined.


(** C10: the queue reset of the fourth timeout leaves the timeout counter
    alone (it is 4 afterwards, and only a receive sets it back to 0), so a
    fifth timeout in a row reaches the failure threshold and the receiver
    ends with its health flag false. *)
Theorem queue_reset_keeps_timeouts tk e4 e5 es s :
  timeouts s = 3 ->
  g_queue s = [] ->
  rx_arrival e4 = None ->
  rx_arrival e5 = None ->
  let r4 := task_receiver_body tk e4 s in
  let r := task_receiver_loop tk (e5 :: es) (state_of r4) in
  result_of r4 = Ok tt /\
  In CallQueueReset (trace_of r4) /\
  timeouts (state_of r4) = 4 /\
  result_of r = Halt TaskDeleted /\
  timeouts (state_of r) = 5 /\
  g_flag_rx_ok (state_of r) = false /\
  trace_of r =
    [CallPrintf (MsgRxTimeout RX_TIMEOUT_MS 5); CallPrintf MsgRxFail;
     CallPrintf MsgRxExit; CallTaskDelete None].
Proof.
  intros Hn Hq Ha4 Ha5.
  destruct (task_receiver_body_timeout tk e4 s 3) as (t4 & E4 & F4); auto; try lia.
  pose proof (task_receiver_body_fail tk e5 (set_timeouts 4 s) Hq Ha5 eq_refl) as E5.
  intros r4 r. subst r r4. rewrite E4.
  unfold result_of, state_of, trace_of. cbn [fst snd].
  unfold task_receiver_loop.
  rewrite (on_break_run _ _ _ _ _ (loop_cons_stop _ _ _ _ _ _ _ E5)).
  cbn [fst snd]. repeat split.
  assert (Hin : In CallQueueReset (escalation t4)) by (rewrite F4; simpl; auto).
  unfold escalation in Hin. apply filter_In in Hin. tauto.
Qed.

Lemma queue_reset_keeps_timeouts_witness :
  let s := set_timeouts 3 booted in
  let r4 := task_receiver_body ticks_100Hz rx_timeout_env s in
  let r := task_receiver_loop ticks_100Hz [rx_timeout_env] (state_of r4) in
  result_of r4 = Ok tt /\
  In CallQueueReset (trace_of r4) /\
  timeouts (state_of r4) = 4 /\
  result_of r = Halt TaskDeleted /\
  timeouts (state_of r) = 5 /\
  g_flag_rx_ok (state_of r) = false /\
  trace_of r =
    [CallPrintf (MsgRxTimeout RX_TIMEOUT_MS 5); CallPrintf MsgRxFail;
     CallPrintf MsgRxExit; CallTaskDelete None].
Proof.
  apply (queue_reset_keeps_timeouts ticks_100Hz rx_timeout_env rx_timeout_env []
                                    (set_timeouts 3 booted));
    reflexivity.
Defined.

(** ** The generator *)

(** An iteration whose send finds room in the queue. *)
Lemma task_generator_body_sent tk e s :
  (length (g_queue s) < QUEUE_LEN)%nat ->
  exists t,
    task_generator_body tk e s =
    (Ok tt,
     set_value (int_incr (value s))
       (set_g_flag_gen_ok true
          (set_g_hb_gen (gen_tick e)
             (set_g_queue (g_queue s ++ [value s]) s))),
     t) /\
    send_reports t = [CallPrintf (MsgGenQueued (value s))].
Proof.
  intros Hroom. apply Nat.ltb_lt in Hroom.
  destruct s as [q hg hr bg br bs fg fr v k rs], e as [t w].
  unfold task_generator_body, xQueueSend, queue_send, bind, gets.
  simpl in *. rewrite Hroom.
  destruct (w <? 100); eexists; split; reflexivity.
Qed.

(** An iteration whose send finds the queue full. *)
Lemma task_generator_body_dropped tk e s :
  (QUEUE_LEN <= length (g_queue s))%nat ->
  exists t,
    task_generator_body tk e s = (Ok tt, set_value (int_incr (value s)) s, t) /\
    send_reports t = [CallPrintf (MsgGenDropped (value s))].
Proof.
  intros Hfull. apply Nat.ltb_ge in Hfull.
  destruct s as [q hg hr bg br bs fg fr v k rs], e as [t w].
  unfold task_generator_body, xQueueSend, queue_send, bind, gets.
  simpl in *. rewrite Hfull.
  destruct (w <? 100); eexists; split; reflexivity.
Qed.

(** Iterations on a queue with room for all their sends. *)
Lemma task_generator_loop_fills tk es : forall s,
  (length (g_queue s) + length es <= QUEUE_LEN)%nat ->
  let r := loop (task_generator_body tk) es s in
  result_of r = Ok tt /\
  g_queue (state_of r) = g_queue s ++ counting (length es) (value s) /\
  value (state_of r) = Nat.iter (length es) int_incr (value s) /\
  send_reports (trace_of r) =
    map (fun v => CallPrintf (MsgGenQueued v)) (counting (length es) (value s)).
Proof.
  induction es as [|e es IH]; intros s Hroom.
  - simpl. rewrite app_nil_r. auto.
  - simpl length in *.
    destruct (task_generator_body_sent tk e s) as (t & Hb & Ht); [lia|].
    rewrite (loop_cons_run _ _ _ _ _ _ Hb).
    match type of Hb with _ = (_, ?s1, _) => specialize (IH s1) end.
    destruct IH as (Hr & Hq & Hv & Hs).
    { destruct s; simpl in *. rewrite length_app. simpl. lia. }
    unfold result_of, state_of, trace_of in *. cbn [fst snd] in *.
    repeat split.
    + exact Hr.
    + rewrite Hq. destruct s; simpl. now rewrite <- app_assoc.
    + rewrite Hv. destruct s; simpl. now rewrite <- Nat.iter_succ_r.
    + unfold send_reports in *. rewrite filter_app, Ht, Hs.
      destruct s; reflexivity.
Qed.

(** Iterations on a full queue that nobody drains: every send is dropped,
    the queue and the heartbeat stay as they are, the counter goes on. *)
Lemma task_generator_loop_drops tk es : forall s,
  (QUEUE_LEN <= length (g_queue s))%nat ->
  let r := loop (task_generator_body tk) es s in
  result_of r = Ok tt /\
  g_queue (state_of r) = g_queue s /\
  g_hb_gen (state_of r) = g_hb_gen s /\
  value (state_of r) = Nat.iter (length es) int_incr (value s) /\
  send_reports (trace_of r) =
    map (fun v => CallPrintf (MsgGenDropped v)) (counting (length es) (value s)).
Proof.
  induction es as [|e es IH]; intros s Hfull.
  - simpl. auto.
  - destruct (task_generator_body_dropped tk e s Hfull) as (t & Hb & Ht).
    rewrite (loop_cons_run _ _ _ _ _ _ Hb).
    destruct (IH (set_value (int_incr (value s)) s)) as (Hr & Hq & Hh & Hv & Hs).
    { destruct s; exact Hfull. }
    unfold result_of, state_of, trace_of in *. cbn [fst snd] in *.
    repeat split.
    + exact Hr.
    + rewrite Hq. now destruct s.
    + rewrite Hh. now destruct s.
    + rewrite Hv. destruct s; simpl. now rewrite <- Nat.iter_succ_r.
    + unfold send_reports in *. rewrite filter_app, Ht, Hs.
      destruct s; reflexivity.
Qed.

(** C8: with an empty queue of capacity 10 that nobody drains, the sends of
    0 to 9 succeed, the eleventh send (of 10) fails and its value is
    dropped, and the counter still advances: the next iteration tries to
    send 11. *)
Theorem producer_overflows_queue tk es e s :
  g_queue s = [] ->
  length es = 11%nat ->
  let r := task_generator tk es s in
  result_of r = Ok tt /\
  send_reports (trace_of r) =
    map (fun v => CallPrintf (MsgGenQueued v)) [0; 1; 2; 3; 4; 5; 6; 7; 8; 9]
      ++ [CallPrintf (MsgGenDropped 10)] /\
  g_queue (state_of r) = [0; 1; 2; 3; 4; 5; 6; 7; 8; 9] /\
  value (state_of r) = 11 /\
  send_reports (trace_of (task_generator_body tk e (state_of r))) =
    [CallPrintf (MsgGenDropped 11)].
Proof.
  intros Hq Hlen.
  destruct es as [|e1 [|e2 [|e3 [|e4 [|e5 [|e6 [|e7 [|e8 [|e9 [|e10 [|e11 [|]]]]]]]]]]]];
    try discriminate.
  change [e1; e2; e3; e4; e5; e6; e7; e8; e9; e10; e11]
    with ([e1; e2; e3; e4; e5; e6; e7; e8; e9; e10] ++ [e11]).
  set (es10 := [e1; e2; e3; e4; e5; e6; e7; e8; e9; e10]).
  assert (Hq0 : g_queue (set_value 0 s) = []) by (now destruct s).
  (* the ten sends that fit *)
  destruct (task_generator_loop_fills tk es10 (set_value 0 s))
    as (Hr1 & Hq1 & Hv1 & Ht1).
  { rewrite Hq0. simpl. unfold QUEUE_LEN. lia. }
  rewrite Hq0 in Hq1.
  change (length es10) with 10%nat in *.
  replace (value (set_value 0 s)) with 0 in * by (now destruct s).
  destruct (loop (task_generator_body tk) es10 (set_value 0 s)) as [[r1 s1] t1] eqn:L1.
  unfold result_of, state_of, trace_of in Hr1, Hq1, Hv1, Ht1. cbn [fst snd] in *.
  subst r1.
  change (Nat.iter 10 int_incr 0) with 10 in Hv1.
  change ([] ++ counting 10 0) with [0; 1; 2; 3; 4; 5; 6; 7; 8; 9] in Hq1.
  change (counting 10 0) with [0; 1; 2; 3; 4; 5; 6; 7; 8; 9] in Ht1.
  (* the eleventh *)
  destruct (task_generator_body_dropped tk e11 s1) as (t2 & Hb2 & Ht2).
  { rewrite Hq1. simpl. unfold QUEUE_LEN. lia. }
  rewrite Hv1 in Hb2, Ht2. change (int_incr 10) with 11 in Hb2.
  (* and the twelfth *)
  destruct (task_generator_body_dropped tk e (set_value 11 s1)) as (t3 & Hb3 & Ht3).
  { replace (g_queue (set_value 11 s1)) with (g_queue s1) by (now destruct s1).
    rewrite Hq1. simpl. unfold QUEUE_LEN. lia. }
  cbv zeta. unfold task_generator.
  rewrite (bind_ok _ _ s tt s [CallWdtAdd]) by reflexivity.
  rewrite (bind_ok _ _ s tt (set_value 0 s) []) by reflexivity.
  rewrite (loop_app _ _ _ _ _ _ L1).
  rewrite (loop_cons_run _ _ _ _ _ _ Hb2).
  unfold result_of, state_of, trace_of. cbn [fst snd loop ret app].
  rewrite Hb3. cbn [fst snd].
  repeat split.
  - unfold send_reports in *. cbn [filter is_send_report].
    rewrite !filter_app, Ht1, Ht2. reflexivity.
  - now destruct s1.
  - exact Ht3.
Qed.

Lemma producer_overflows_queue_witness :
  let r := task_generator ticks_100Hz (gen_envs 11 0) booted in
  result_of r = Ok tt /\
  send_reports (trace_of r) =
    map (fun v => CallPrintf (MsgGenQueued v)) [0; 1; 2; 3; 4; 5; 6; 7; 8; 9]
      ++ [CallPrintf (MsgGenDropped 10)] /\
  g_queue (state_of r) = [0; 1; 2; 3; 4; 5; 6; 7; 8; 9] /\
  value (state_of r) = 11 /\
  send_reports (trace_of (task_generator_body ticks_100Hz (mkGenEnv 165 3000) (state_of r))) =
    [CallPrintf (MsgGenDropped 11)].
Proof.
  apply (producer_overflows_queue ticks_100Hz (gen_envs 11 0) (mkGenEnv 165 3000) booted);
    reflexivity.
Defined.

(** C4, as the code has it: the generator stamps its heartbeat only when a
    send succeeds.  After the send that fills the queue, at tick
    [gen_tick e], any number of further iterations on the full queue leave
    the heartbeat at that tick, so the supervisor's check at [now] fires
    exactly when more than three supervisor periods have passed since that
    last successful send, however long the generator keeps running. *)
Theorem producer_heartbeat_is_last_successful_send tk e es s now :
  S (length (g_queue s)) = QUEUE_LEN ->
  let r := loop (task_generator_body tk) (e :: es) s in
  result_of r = Ok tt /\
  send_reports (trace_of r) =
    CallPrintf (MsgGenQueued (value s)) ::
    map (fun v => CallPrintf (MsgGenDropped v))
        (counting (length es) (int_incr (value s))) /\
  g_hb_gen (state_of r) = gen_tick e /\
  gen_stalled tk now (state_of r) = stalled tk 3 now (gen_tick e).
Proof.
  intros Hlen.
  destruct (task_generator_body_sent tk e s) as (t & Hb & Ht); [lia|].
  match type of Hb with _ = (_, ?s', _) => set (s1 := s') in * end.
  destruct (task_generator_loop_drops tk es s1) as (Hr & _ & Hh & _ & Hs).
  { subst s1. destruct s; simpl in *. rewrite length_app. simpl. lia. }
  cbv zeta. rewrite (loop_cons_run _ _ _ _ _ _ Hb).
  unfold result_of, state_of, trace_of in *. cbn [fst snd] in *.
  assert (Hhb : g_hb_gen s1 = gen_tick e) by (subst s1; now destruct s).
  assert (Hval : value s1 = int_incr (value s)) by (subst s1; now destruct s).
  repeat split.
  - exact Hr.
  - unfold send_reports in *. rewrite filter_app, Ht, Hs, Hval. reflexivity.
  - now rewrite Hh.
  - unfold gen_stalled. now rewrite Hh, Hhb.
Qed.

Lemma producer_heartbeat_is_last_successful_send_witness :
  let s := set_value 9 (set_g_queue [0; 1; 2; 3; 4; 5; 6; 7; 8] booted) in
  let r := loop (task_generator_body ticks_100Hz) (gen_envs 31 135) s in
  S (length (g_queue s)) = QUEUE_LEN /\
  result_of r = Ok tt /\
  send_reports (trace_of r) =
    CallPrintf (MsgGenQueued 9) ::
    map (fun v => CallPrintf (MsgGenDropped v)) (counting 30 10) /\
  g_hb_gen (state_of r) = 135 /\
  gen_stalled ticks_100Hz 600 (state_of r) = stalled ticks_100Hz 3 600 135.
Proof.
  split; [reflexivity|].
  apply (producer_heartbeat_is_last_successful_send ticks_100Hz
           (mkGenEnv 135 3000) (gen_envs 30 150)
           (set_value 9 (set_g_queue [0; 1; 2; 3; 4; 5; 6; 7; 8] booted)) 600).
  reflexivity.
Defined.

(** C4, as stated, fails: the generator runs forty iterations (ticks 0 to
    585), the last thirty on a full queue; at the supervisor tick 600 the
    generator is still in its loop, yet the staleness check fires and the
    generator is deleted and created again. *)
Lemma running_producer_is_recreated :
  let r := task_generator ticks_100Hz (gen_envs 40 0) booted in
  let sup := task_supervisor_body ticks_100Hz
               (mkSupEnv 600 (Some 3%nat) 600 (Some 4%nat) 600 200000 200000 150000)
               (state_of r) in
  result_of r = Ok tt /\
  length (send_reports (trace_of r)) = 40%nat /\
  value (state_of r) = 40 /\
  g_hb_gen (state_of r) = 135 /\
  gen_stalled ticks_100Hz 600 (state_of r) = true /\
  In (CallTaskDelete (Some 1%nat)) (trace_of sup) /\
  created TaskGenerator (trace_of sup) = true.
Proof.
  vm_compute. repeat split; auto 10.
Qed.

(** ** The supervisor *)

(** C7: a supervisor tick that reads a minimum-ever free heap below 8 KiB
    restarts the device, whatever the restart count and whether or not a
    task was recreated in that tick. *)
Theorem min_heap_floor_restarts tk e s :
  sup_min_heap e < 8 * 1024 ->
  let r := task_supervisor_body tk e s in
  result_of r = Halt DeviceRestart /\
  restarted (trace_of r) = true.
Proof.
  intros Hmin. apply Z.ltb_lt in Hmin.
  destruct s as [q hg hr bg br bs fg fr v k rs],
           e as [now cg tg cr tr fhr fh mh].
  simpl in Hmin. change (8 * 1024) with 8192 in Hmin.
  supervisor_cases; auto.
Qed.

Lemma min_heap_floor_restarts_witness :
  let e := mkSupEnv 600 None 600 None 600 200000 200000 8000 in
  let r := task_supervisor_body ticks_100Hz e booted in
  sup_min_heap e < 8 * 1024 /\
  result_of r = Halt DeviceRestart /\
  restarted (trace_of r) = true.
Proof.
  split; [reflexivity|].
  apply (min_heap_floor_restarts ticks_100Hz
           (mkSupEnv 600 None 600 None 600 200000 200000 8000) booted).
  reflexivity.
Defined.

(** C2, as the code has it: the restart of the "many recreations and
    little memory" heuristic sits inside the branch that recreates the
    receiver.  A tick takes it exactly when it recreates the receiver
    (handle missing, or heartbeat older than five periods), the restart
    counter with this recreation counted is at least 3, and the free heap
    read in that branch is below 16 KiB; otherwise the tick restarts the
    device only through the minimum-heap floor. *)
Theorem exhaustion_restart_only_on_recreation tk e s :
  let r := task_supervisor_body tk e s in
  let fired := rx_absent_or_stalled tk (sup_now e) s
               && (int_incr (rx_restarts s) >=? 3)
               && (sup_free_heap_rx e <? 16 * 1024) in
  exhaustion_restart (trace_of r) = fired /\
  result_of r =
    if fired || (sup_min_heap e <? 8 * 1024) then Halt DeviceRestart else Ok tt.
Proof.
  destruct s as [q hg hr bg br bs fg fr v k rs],
           e as [now cg tg cr tr fhr fh mh].
  supervisor_cases; auto.
Qed.

(** C2, as stated, fails: three restarts are on the counter and the free
    heap is below 16 KiB, but the receiver is present and its heartbeat is
    fresh, so the tick recreates nothing and does not restart the device. *)
Lemma low_heap_after_restarts_without_recreation :
  let s := set_rx_restarts 3 (set_g_hb_rx 580 (set_g_hb_gen 590 booted)) in
  let e := mkSupEnv 600 None 600 None 600 10000 10000 9000 in
  3 <= rx_restarts s /\
  sup_free_heap e < 16 * 1024 /\
  task_supervisor_body ticks_100Hz e s =
    (Ok tt, set_g_hb_sup 600 s,
     [CallTaskDelay 150; CallPrintf (MsgSupStatus false 590 false 580);
      CallPrintf (MsgSupHeap 10000 9000); CallWdtReset]).
Proof.
  repeat split; try reflexivity; vm_compute; discriminate.
Qed.

(** C6: when the generator's heartbeat is older than three supervisor
    periods at a tick, the supervisor deletes the generator's task if it
    has a handle for one, creates the task again, stamps the heartbeat
    with the tick count read after the creation (not before the tick's
    own [now], the clock being monotone) and clears the health flag. *)
Theorem stalled_producer_is_recreated tk e s :
  gen_stalled tk (sup_now e) s = true ->
  sup_now e <= sup_tick_gen e ->
  let r := task_supervisor_body tk e s in
  (exists rest,
     trace_of r =
       [CallTaskDelay (tk SUP_PERIOD_MS);
        CallPrintf (MsgSupStatus (g_flag_gen_ok s) (g_hb_gen s) (g_flag_rx_ok s) (g_hb_rx s));
        CallPrintf MsgSupGenStalled]
       ++ match g_task_gen s with
          | Some h => [CallTaskDelete (Some h)]
          | None => []
          end
       ++ CallTaskCreate TaskGenerator :: rest) /\
  g_task_gen (state_of r) = sup_created_gen e /\
  g_hb_gen (state_of r) = sup_tick_gen e /\
  sup_now e <= g_hb_gen (state_of r) /\
  g_flag_gen_ok (state_of r) = false.
Proof.
  intros Hstale Hclock.
  destruct s as [q hg hr bg br bs fg fr v k rs],
           e as [now cg tg cr tr fhr fh mh].
  unfold gen_stalled in Hstale. simpl in Hstale, Hclock.
  supervisor_cases; repeat split; eauto.
Qed.

Lemma stalled_producer_is_recreated_witness :
  let s := set_g_hb_gen 135 booted in
  let e := mkSupEnv 600 (Some 3%nat) 601 None 601 200000 200000 150000 in
  let r := task_supervisor_body ticks_100Hz e s in
  gen_stalled ticks_100Hz 600 s = true /\
  (exists rest,
     trace_of r =
       [CallTaskDelay 150; CallPrintf (MsgSupStatus false 135 false 0);
        CallPrintf MsgSupGenStalled; CallTaskDelete (Some 1%nat);
        CallTaskCreate TaskGenerator] ++ rest) /\
  g_task_gen (state_of r) = Some 3%nat /\
  g_hb_gen (state_of r) = 601 /\
  600 <= g_hb_gen (state_of r) /\
  g_flag_gen_ok (state_of r) = false.
Proof.
  split; [reflexivity|].
  apply (stalled_producer_is_recreated ticks_100Hz
           (mkSupEnv 600 (Some 3%nat) 601 None 601 200000 200000 150000)
           (set_g_hb_gen 135 booted)).
  - reflexivity.
  - simpl. lia.
Defined.

(** The receiver never writes its own handle. *)
Lemma task_receiver_body_keeps_handle tk e s :
  g_task_rx (state_of (task_receiver_body tk e s)) = g_task_rx s.
Proof.
  destruct s as [q hg hr bg br bs fg fr v n k], e as [a t m fh mh].
  destruct q as [|x q]; [destruct a as [x|]|]; try destruct m;
    cbv -[Z.ltb Z.eqb Z.geb int_incr];
    repeat match goal with
           | |- context [if ?b then _ else _] =>
               destruct b; cbv -[Z.ltb Z.eqb Z.geb int_incr]
           end; reflexivity.
Qed.

Lemma loop_receiver_keeps_handle tk es : forall s,
  g_task_rx (state_of (loop (task_receiver_body tk) es s)) = g_task_rx s.
Proof.
  induction es as [|e es IH]; intros s; [reflexivity|].
  pose proof (task_receiver_body_keeps_handle tk e s) as Hb.
  destruct (result_of (task_receiver_body tk e s)) as [[]|x] eqn:Hr.
  - rewrite (loop_cons_ok _ _ _ _ Hr). unfold state_of at 1. cbn [fst snd].
    now rewrite IH.
  - rewrite (loop_cons_halt _ _ _ _ _ Hr). exact Hb.
Qed.

Lemma task_receiver_keeps_handle tk es s :
  g_task_rx (state_of (task_receiver tk es s)) = g_task_rx s.
Proof.
  unfold task_receiver, task_receiver_loop.
  rewrite (bind_ok _ _ s tt s [CallWdtAdd]) by reflexivity.
  rewrite (bind_ok _ _ s tt (set_timeouts 0 s) []) by reflexivity.
  unfold state_of at 1. cbn [fst snd].
  pose proof (loop_receiver_keeps_handle tk es (set_timeouts 0 s)) as Hl.
  unfold on_break.
  destruct (loop (task_receiver_body tk) es (set_timeouts 0 s)) as [[[[]|[| |]] s1] t1];
    unfold state_of in *; cbn in *; rewrite Hl; now destruct s.
Qed.

(** The supervisor creates a receiver in a tick exactly when the handle is
    missing or the heartbeat is older than five supervisor periods; with a
    missing handle the heartbeat is not looked at. *)
Lemma supervisor_recreates_receiver_iff tk e s :
  created TaskReceiver (trace_of (task_supervisor_body tk e s)) =
  rx_absent_or_stalled tk (sup_now e) s.
Proof.
  destruct s as [q hg hr bg br bs fg fr v k rs],
           e as [now cg tg cr tr fhr fh mh].
  supervisor_cases; auto.
Qed.

(** C3, on the code: a receiver that deletes itself leaves [g_task_rx] as
    it was, so the supervisor does not find the handle missing; while the
    receiver's last heartbeat is at most five supervisor periods old, a
    supervisor tick does not create a new receiver. *)
Theorem self_deleted_receiver_keeps_handle tk es e s h :
  g_task_rx s = Some h ->
  let r := task_receiver tk es s in
  result_of r = Halt TaskDeleted ->
  stalled tk 5 (sup_now e) (g_hb_rx (state_of r)) = false ->
  g_task_rx (state_of r) = Some h /\
  created TaskReceiver (trace_of (task_supervisor_body tk e (state_of r))) = false.
Proof.
  intros Hh r _ Hfresh.
  assert (Hkeep : g_task_rx (state_of r) = Some h)
    by (subst r; now rewrite task_receiver_keeps_handle).
  split; [exact Hkeep|].
  rewrite supervisor_recreates_receiver_iff.
  unfold rx_absent_or_stalled. now rewrite Hkeep.
Qed.

Lemma self_deleted_receiver_keeps_handle_witness :
  let r := task_receiver ticks_100Hz (repeat rx_timeout_env 5) booted in
  let e := mkSupEnv 600 None 600 (Some 4%nat) 600 200000 200000 150000 in
  result_of r = Halt TaskDeleted /\
  g_task_rx (state_of r) = Some 2%nat /\
  created TaskReceiver (trace_of (task_supervisor_body ticks_100Hz e (state_of r))) = false.
Proof.
  split; [reflexivity|].
  apply (self_deleted_receiver_keeps_handle ticks_100Hz (repeat rx_timeout_env 5)
           (mkSupEnv 600 None 600 (Some 4%nat) 600 200000 200000 150000) booted 2%nat);
    reflexivity.
Defined.

(** * Further properties of the tasks *)

(** ** Loops *)

Lemma int_incr_small n :
  - 2 ^ 31 <= n < INT_MAX ->
  int_incr n = n + 1.
Proof.
  unfold INT_MAX, int_incr, wrap_int. intros Hn.
  rewrite Z.mod_small; lia.
Qed.

Lemma count_calls_none (f : Call -> bool) tr :
  Forall (fun c => f c = false) tr ->
  count_calls f tr = 0%nat.
Proof.
  unfold count_calls. induction 1 as [|c l Hc _ IH]; [reflexivity|].
  simpl. now rewrite Hc.
Qed.

(** The parts of a run of the loop whose first iteration completes. *)
Lemma loop_cons_result {E : Type} (body : E -> M unit) e es s :
  result_of (body e s) = Ok tt ->
  result_of (loop body (e :: es) s) = result_of (loop body es (state_of (body e s))).
Proof.
  intros Hr. now rewrite (loop_cons_ok _ _ _ _ Hr).
Qed.

Lemma loop_cons_state {E : Type} (body : E -> M unit) e es s :
  result_of (body e s) = Ok tt ->
  state_of (loop body (e :: es) s) = state_of (loop body es (state_of (body e s))).
Proof.
  intros Hr. now rewrite (loop_cons_ok _ _ _ _ Hr).
Qed.

Lemma loop_cons_trace {E : Type} (body : E -> M unit) e es s :
  result_of (body e s) = Ok tt ->
  trace_of (loop body (e :: es) s) =
  trace_of (body e s) ++ trace_of (loop body es (state_of (body e s))).
Proof.
  intros Hr. now rewrite (loop_cons_ok _ _ _ _ Hr).
Qed.

(** A property of the state kept by every iteration is kept by the loop,
    also when an iteration halts. *)
Lemma loop_invariant {E : Type} (body : E -> M unit) (P : State -> Prop) :
  (forall e s, P s -> P (state_of (body e s))) ->
  forall es s, P s -> P (state_of (loop body es s)).
Proof.
  intros Hbody. induction es as [|e es IH]; intros s Hs; [exact Hs|].
  destruct (result_of (body e s)) as [[]|x] eqn:Hr.
  - rewrite (loop_cons_ok _ _ _ _ Hr). unfold state_of at 1. cbn [fst snd].
    apply IH, Hbody, Hs.
  - rewrite (loop_cons_halt _ _ _ _ _ Hr). apply Hbody, Hs.
Qed.

(** What holds of the calls of every iteration holds of the calls of the
    loop. *)
Lemma loop_trace_Forall {E : Type} (body : E -> M unit) (P : Call -> Prop) :
  (forall e s, Forall P (trace_of (body e s))) ->
  forall es s, Forall P (trace_of (loop body es s)).
Proof.
  intros Hbody. induction es as [|e es IH]; intros s; [constructor|].
  destruct (result_of (body e s)) as [[]|x] eqn:Hr.
  - rewrite (loop_cons_ok _ _ _ _ Hr). unfold trace_of at 1. cbn [fst snd].
    apply Forall_app. split; [apply Hbody | apply IH].
  - rewrite (loop_cons_halt _ _ _ _ _ Hr). apply Hbody.
Qed.

(** A call made exactly once by every iteration that completes, and not at
    all by one that halts, counts the completed iterations. *)
Lemma loop_count_completed {E : Type} (body : E -> M unit) (f : Call -> bool) :
  (forall e s, count_calls f (trace_of (body e s)) =
               match result_of (body e s) with Ok _ => 1%nat | Halt _ => 0%nat end) ->
  forall es s,
    match result_of (loop body es s) with
    | Ok _ => count_calls f (trace_of (loop body es s)) = length es
    | Halt _ => (count_calls f (trace_of (loop body es s)) < length es)%nat
    end.
Proof.
  intros Hbody. induction es as [|e es IH]; intros s; [reflexivity|].
  specialize (Hbody e s).
  destruct (result_of (body e s)) as [[]|y] eqn:Hr.
  - rewrite (loop_cons_ok _ _ _ _ Hr).
    specialize (IH (state_of (body e s))).
    unfold count_calls, result_of, trace_of in *. cbn [fst snd] in *.
    rewrite filter_app, length_app, Hbody.
    destruct (fst (fst (loop body es (state_of (body e s))))); simpl; lia.
  - rewrite (loop_cons_halt _ _ _ _ _ Hr).
    unfold result_of, trace_of. cbn [fst snd].
    unfold trace_of in Hbody. rewrite Hbody. simpl. lia.
Qed.

(** ** More on the receiver *)

(** The function as a whole, from its loop. *)
Lemma task_receiver_run tk es s :
  task_receiver tk es s =
  match loop (task_receiver_body tk) es (set_timeouts 0 s) with
  | (Halt Break, s1, t1) =>
      (Halt TaskDeleted, s1, CallWdtAdd :: t1 ++ [CallPrintf MsgRxExit; CallTaskDelete None])
  | (r, s1, t1) => (r, s1, CallWdtAdd :: t1)
  end.
Proof.
  unfold task_receiver, task_receiver_loop.
  rewrite (bind_ok _ _ s tt s [CallWdtAdd]) by reflexivity.
  rewrite (bind_ok _ _ s tt (set_timeouts 0 s) []) by reflexivity.
  unfold on_break.
  destruct (loop (task_receiver_body tk) es (set_timeouts 0 s)) as [[[[]|[| |]] s1] t1];
    reflexivity.
Qed.

(** Runs one receiver iteration on every combination of its inputs. *)
Ltac receiver_cases :=
  match goal with
  | s : State, e : RxEnv |- _ =>
      destruct s as [q hg hr bg br bs fg fr v n k], e as [a t m fh mh];
      destruct q as [|x q]; [destruct a as [x|]|]; try destruct m;
      cbv -[Z.ltb Z.eqb Z.geb int_incr];
      repeat match goal with
             | |- context [if ?b then _ else _] =>
                 destruct b eqn:?; cbv -[Z.ltb Z.eqb Z.geb int_incr]
             end
  end.

(** How an iteration ends: it breaks on a failed [malloc] and on a timeout
    that brings the count to the failure threshold, and completes
    otherwise. *)
Lemma task_receiver_body_result tk e s :
  result_of (task_receiver_body tk e s) =
  match fst (queue_receive (g_queue s) (rx_arrival e)) with
  | Some _ => if rx_malloc_ok e then Ok tt else Halt Break
  | None => if int_incr (timeouts s) >=? RX_FAIL_THRESHOLD then Halt Break else Ok tt
  end.
Proof.
  receiver_cases; try reflexivity;
    repeat match goal with
           | H : (_ =? _) = true |- _ => apply Z.eqb_eq in H
           | H : (_ >=? _) = _ |- _ => rewrite Z.geb_leb in H
           | H : (_ <=? _) = false |- _ => apply Z.leb_gt in H
           | H : (_ <=? _) = true |- _ => apply Z.leb_le in H
           end; unfold RX_FAIL_THRESHOLD in *; try lia.
Qed.

(** An invariant of the loop's completed iterations, and what a halting
    iteration establishes instead. *)
Lemma loop_inv_result {E : Type} (body : E -> M unit)
    (I : State -> Prop) (Q : Exit -> State -> Prop) :
  (forall e s, I s ->
     match result_of (body e s) with
     | Ok _ => I (state_of (body e s))
     | Halt x => Q x (state_of (body e s))
     end) ->
  forall es s, I s ->
    match result_of (loop body es s) with
    | Ok _ => I (state_of (loop body es s))
    | Halt x => Q x (state_of (loop body es s))
    end.
Proof.
  intros Hbody. induction es as [|e es IH]; intros s Hs; [exact Hs|].
  specialize (Hbody e s Hs).
  destruct (result_of (body e s)) as [[]|y] eqn:Hr.
  - rewrite (loop_cons_ok _ _ _ _ Hr).
    specialize (IH _ Hbody).
    unfold result_of, state_of in *. cbn [fst snd] in *. exact IH.
  - rewrite (loop_cons_halt _ _ _ _ _ Hr).
    unfold result_of, state_of in *. cbn [fst snd] in *. exact Hbody.
Qed.

(** The health flag after an iteration. *)
Lemma task_receiver_body_flag tk e s :
  g_flag_rx_ok (state_of (task_receiver_body tk e s)) =
  match fst (queue_receive (g_queue s) (rx_arrival e)) with
  | Some _ => rx_malloc_ok e
  | None => if int_incr (timeouts s) >=? RX_FAIL_THRESHOLD then false else g_flag_rx_ok s
  end.
Proof.
  receiver_cases; try reflexivity;
    repeat match goal with
           | H : (_ =? _) = true |- _ => apply Z.eqb_eq in H
           | H : (_ >=? _) = _ |- _ => rewrite Z.geb_leb in H
           | H : (_ <=? _) = false |- _ => apply Z.leb_gt in H
           | H : (_ <=? _) = true |- _ => apply Z.leb_le in H
           end; unfold RX_FAIL_THRESHOLD in *; try lia.
Qed.

(** The invariant of the receiver's loop: the count is between 0 and 4
    when an iteration starts; the iteration that breaks leaves it at most
    5 and clears the health flag. *)
Lemma task_receiver_body_invariant tk e s :
  0 <= timeouts s <= 4 ->
  match result_of (task_receiver_body tk e s) with
  | Ok _ => 0 <= timeouts (state_of (task_receiver_body tk e s)) <= 4
  | Halt x =>
      x = Break /\
      0 <= timeouts (state_of (task_receiver_body tk e s)) <= 5 /\
      g_flag_rx_ok (state_of (task_receiver_body tk e s)) = false
  end.
Proof.
  intros Hn.
  rewrite task_receiver_body_result, task_receiver_body_timeouts,
    task_receiver_body_flag.
  rewrite int_incr_small by (unfold INT_MAX; lia).
  unfold RX_FAIL_THRESHOLD.
  destruct (fst (queue_receive (g_queue s) (rx_arrival e))) as [v|].
  - destruct (rx_malloc_ok e); repeat split; lia.
  - destruct (timeouts s + 1 >=? 5) eqn:Hge; rewrite Z.geb_leb in Hge;
      [apply Z.leb_le in Hge | apply Z.leb_gt in Hge]; repeat split; lia.
Qed.

Lemma task_receiver_loop_invariant tk es s :
  0 <= timeouts s <= 4 ->
  match result_of (loop (task_receiver_body tk) es s) with
  | Ok _ => 0 <= timeouts (state_of (loop (task_receiver_body tk) es s)) <= 4
  | Halt x =>
      x = Break /\
      0 <= timeouts (state_of (loop (task_receiver_body tk) es s)) <= 5 /\
      g_flag_rx_ok (state_of (loop (task_receiver_body tk) es s)) = false
  end.
Proof.
  apply (loop_inv_result (task_receiver_body tk)
           (fun s => 0 <= timeouts s <= 4)
           (fun x s => x = Break /\ 0 <= timeouts s <= 5 /\ g_flag_rx_ok s = false)).
  intros e' s'. apply task_receiver_body_invariant.
Qed.

(** No iteration creates or deletes a task or restarts the device. *)
Lemma task_receiver_body_no_lifecycle tk e s :
  Forall (fun c => is_lifecycle c = false) (trace_of (task_receiver_body tk e s)).
Proof.
  receiver_cases; repeat constructor.
Qed.

(** The watchdog reset is the last but one call of a completed iteration. *)
Lemma task_receiver_body_wdt tk e s :
  count_calls is_wdt_reset (trace_of (task_receiver_body tk e s)) =
  match result_of (task_receiver_body tk e s) with
  | Ok _ => 1%nat
  | Halt _ => 0%nat
  end.
Proof.
  receiver_cases; reflexivity.
Qed.

(** X1: whatever the receiver meets, its timeout counter stays between 0
    and 4 while it runs and is at most 5 when it has ended; the [int]
    never comes near overflow. *)
Theorem receiver_timeouts_bounded tk es s :
  let r := task_receiver tk es s in
  0 <= timeouts (state_of r) <=
  match result_of r with
  | Ok _ => 4
  | Halt _ => 5
  end.
Proof.
  cbv zeta. rewrite task_receiver_run.
  pose proof (task_receiver_loop_invariant tk es (set_timeouts 0 s)) as Hinv.
  destruct (loop (task_receiver_body tk) es (set_timeouts 0 s)) as [[[[]|x] s1] t1];
    unfold result_of, state_of in *; cbn [fst snd] in *.
  - apply Hinv. simpl. lia.
  - destruct Hinv as (-> & Hn & _); [simpl; lia|]. cbn [fst snd]. exact Hn.
Qed.

(** X2: the receiver function stops in one way only: it leaves its loop
    with its health flag false, reports its exit and deletes itself.  It
    never restarts the device. *)
Theorem receiver_ends_only_by_deleting_itself tk es s x :
  let r := task_receiver tk es s in
  result_of r = Halt x ->
  x = TaskDeleted /\
  g_flag_rx_ok (state_of r) = false /\
  (exists pre, trace_of r = pre ++ [CallPrintf MsgRxExit; CallTaskDelete None]) /\
  count_calls is_lifecycle (trace_of r) = 1%nat.
Proof.
  cbv zeta. rewrite task_receiver_run.
  pose proof (task_receiver_loop_invariant tk es (set_timeouts 0 s)) as Hinv.
  pose proof (loop_trace_Forall (task_receiver_body tk)
                (fun c => is_lifecycle c = false)) as Hcalls.
  specialize (Hcalls (task_receiver_body_no_lifecycle tk) es (set_timeouts 0 s)).
  destruct (loop (task_receiver_body tk) es (set_timeouts 0 s)) as [[[[]|y] s1] t1];
    unfold result_of, state_of, trace_of in *; cbn [fst snd] in *;
    [discriminate|].
  destruct Hinv as (-> & _ & Hflag); [simpl; lia|]. cbn [fst snd].
  intros Hx. inversion Hx; subst x. repeat split.
  - exact Hflag.
  - now exists (CallWdtAdd :: t1).
  - apply count_calls_none in Hcalls. unfold count_calls in *.
    cbn [filter is_lifecycle]. rewrite filter_app, length_app, Hcalls.
    reflexivity.
Qed.

Lemma receiver_ends_only_by_deleting_itself_witness :
  let r := task_receiver ticks_100Hz [rx_arrival_env 7 120 false] booted in
  result_of r = Halt TaskDeleted /\
  g_flag_rx_ok (state_of r) = false /\
  (exists pre, trace_of r = pre ++ [CallPrintf MsgRxExit; CallTaskDelete None]) /\
  count_calls is_lifecycle (trace_of r) = 1%nat.
Proof.
  split; [reflexivity|].
  apply (receiver_ends_only_by_deleting_itself ticks_100Hz
           [rx_arrival_env 7 120 false] booted TaskDeleted).
  reflexivity.
Defined.

(** X3: the receiver checks in with the watchdog once in every iteration
    it completes and not in the one that ends it. *)
Theorem receiver_watchdog_checkins tk es s :
  let r := task_receiver tk es s in
  match result_of r with
  | Ok _ => count_calls is_wdt_reset (trace_of r) = length es
  | Halt _ => (count_calls is_wdt_reset (trace_of r) < length es)%nat
  end.
Proof.
  cbv zeta. rewrite task_receiver_run.
  pose proof (loop_count_completed (task_receiver_body tk) is_wdt_reset) as Hcount.
  specialize (Hcount (task_receiver_body_wdt tk) es (set_timeouts 0 s)).
  destruct (loop (task_receiver_body tk) es (set_timeouts 0 s)) as [[[[]|[| |]] s1] t1];
    unfold result_of, trace_of in *; cbn [fst snd] in *;
    unfold count_calls in *; cbn [filter is_wdt_reset]; try exact Hcount.
  rewrite filter_app, length_app. simpl. lia.
Qed.

(** An iteration that finds a message in the queue and gets its scratch
    cell. *)
Lemma task_receiver_body_received tk e s v q' :
  g_queue s = v :: q' ->
  rx_malloc_ok e = true ->
  exists t,
    task_receiver_body tk e s =
    (Ok tt,
     set_g_flag_rx_ok true
       (set_g_hb_rx (rx_tick e) (set_timeouts 0 (set_g_queue q' s))),
     t) /\
    transmitted t = [v].
Proof.
  intros Hq Hm.
  destruct s as [q hg hr bg br bs fg fr x n k], e as [a t m fh mh].
  simpl in *. subst q m.
  unfold task_receiver_body. simpl rx_free_heap.
  destruct (fh <? 20 * 1024); eexists; split; reflexivity.
Qed.

(** The loop on a queue that holds a message for each iteration. *)
Lemma task_receiver_loop_drains tk es : forall s,
  (length es <= length (g_queue s))%nat ->
  Forall (fun e => rx_malloc_ok e = true) es ->
  let r := loop (task_receiver_body tk) es s in
  result_of r = Ok tt /\
  transmitted (trace_of r) = firstn (length es) (g_queue s) /\
  g_queue (state_of r) = skipn (length es) (g_queue s).
Proof.
  induction es as [|e es IH]; intros s Hlen Hm; [simpl; auto|].
  apply Forall_cons_iff in Hm. destruct Hm as [Hm Hms].
  destruct (g_queue s) as [|v q'] eqn:Hq; [simpl in Hlen; lia|].
  destruct (task_receiver_body_received tk e s v q' Hq Hm) as (t & Hb & Ht).
  match type of Hb with _ = (_, ?s', _) => set (s1 := s') in * end.
  assert (Hq1 : g_queue s1 = q') by (subst s1; now destruct s).
  specialize (IH s1). rewrite Hq1 in IH.
  destruct IH as (Hr & Htr & Hqr); [simpl in Hlen; lia | exact Hms |].
  cbv zeta. rewrite (loop_cons_run _ _ _ _ _ _ Hb).
  unfold result_of, state_of, trace_of in *. cbn [fst snd] in *.
  repeat split.
  - exact Hr.
  - unfold transmitted in *. rewrite flat_map_app, Ht, Htr. reflexivity.
  - exact Hqr.
Qed.

(** X4: the receiver transmits the messages of the queue oldest first:
    [n] iterations on a queue of at least [n] messages, each with a
    successful [malloc], transmit its first [n] messages in order and
    leave the others queued in order. *)
Theorem receiver_transmits_in_queue_order tk es s :
  (length es <= length (g_queue s))%nat ->
  Forall (fun e => rx_malloc_ok e = true) es ->
  let r := task_receiver tk es s in
  result_of r = Ok tt /\
  transmitted (trace_of r) = firstn (length es) (g_queue s) /\
  g_queue (state_of r) = skipn (length es) (g_queue s).
Proof.
  intros Hlen Hm. cbv zeta. rewrite task_receiver_run.
  destruct (task_receiver_loop_drains tk es (set_timeouts 0 s)) as (Hr & Ht & Hq).
  { now destruct s. }
  { exact Hm. }
  replace (g_queue (set_timeouts 0 s)) with (g_queue s) in * by (now destruct s).
  destruct (loop (task_receiver_body tk) es (set_timeouts 0 s)) as [[r1 s1] t1].
  unfold result_of, state_of, trace_of in *. cbn [fst snd] in *. subst r1.
  cbn [fst snd]. auto.
Qed.

Lemma receiver_transmits_in_queue_order_witness :
  let s := set_g_queue [5; 6; 7] booted in
  let r := task_receiver ticks_100Hz
             [rx_arrival_env 0 100 true; rx_arrival_env 0 105 true] s in
  result_of r = Ok tt /\
  transmitted (trace_of r) = [5; 6] /\
  g_queue (state_of r) = [7].
Proof.
  apply (receiver_transmits_in_queue_order ticks_100Hz
           [rx_arrival_env 0 100 true; rx_arrival_env 0 105 true]
           (set_g_queue [5; 6; 7] booted)).
  - simpl. lia.
  - repeat constructor.
Defined.

(** The globals other than the queue that an iteration leaves alone. *)
Lemma task_receiver_body_frame tk e s :
  let s' := state_of (task_receiver_body tk e s) in
  (g_task_gen s', g_task_rx s', g_hb_gen s', g_hb_sup s', g_flag_gen_ok s',
   value s', rx_restarts s') =
  (g_task_gen s, g_task_rx s, g_hb_gen s, g_hb_sup s, g_flag_gen_ok s,
   value s, rx_restarts s).
Proof.
  receiver_cases; reflexivity.
Qed.

(** X5: the receiver writes its own heartbeat, flag and counter and the
    queue only: the task handles (its own included), the heartbeats and
    the flag of the other tasks and their counters are as it found them. *)
Theorem receiver_writes_only_its_own_globals tk es s :
  let s' := state_of (task_receiver tk es s) in
  (g_task_gen s', g_task_rx s', g_hb_gen s', g_hb_sup s', g_flag_gen_ok s',
   value s', rx_restarts s') =
  (g_task_gen s, g_task_rx s, g_hb_gen s, g_hb_sup s, g_flag_gen_ok s,
   value s, rx_restarts s).
Proof.
  cbv zeta. rewrite task_receiver_run.
  pose proof (loop_invariant (task_receiver_body tk)
                (fun s' =>
                   (g_task_gen s', g_task_rx s', g_hb_gen s', g_hb_sup s',
                    g_flag_gen_ok s', value s', rx_restarts s') =
                   (g_task_gen s, g_task_rx s, g_hb_gen s, g_hb_sup s,
                    g_flag_gen_ok s, value s, rx_restarts s))) as Hinv.
  specialize (Hinv (fun e' s' Hs' => eq_trans (task_receiver_body_frame tk e' s') Hs')
                   es (set_timeouts 0 s)).
  destruct (loop (task_receiver_body tk) es (set_timeouts 0 s)) as [[[[]|[| |]] s1] t1];
    unfold state_of in *; cbn [fst snd] in *; apply Hinv; now destruct s.
Qed.

(** *** Five timeouts in a row *)

Lemma five_timeouts_nil : ~ five_timeouts [].
Proof.
  intros (pre & post & H). apply (f_equal (@length _)) in H.
  rewrite !length_app, repeat_length in H. simpl in H. lia.
Qed.

Lemma five_timeouts_Some v l : five_timeouts (Some v :: l) <-> five_timeouts l.
Proof.
  split; intros (pre & post & H).
  - destruct pre as [|x pre]; [discriminate|].
    inversion H; subst. now exists pre, post.
  - exists (Some v :: pre), post. now rewrite H.
Qed.

Lemma five_timeouts_start l : firstn 5 l = repeat None 5 -> five_timeouts l.
Proof.
  intros H. exists [], (skipn 5 l).
  change (l = repeat None 5 ++ skipn 5 l).
  rewrite <- H. symmetry. apply firstn_skipn.
Qed.

Lemma five_timeouts_None l :
  five_timeouts (None :: l) <-> firstn 4 l = repeat None 4 \/ five_timeouts l.
Proof.
  split.
  - intros (pre & post & H). destruct pre as [|x pre].
    + left. simpl in H. inversion H; subst. reflexivity.
    + right. inversion H; subst. now exists pre, post.
  - intros [H | (pre & post & H)].
    + apply five_timeouts_start.
      change (None :: firstn 4 l = None :: repeat None 4). now rewrite H.
    + exists (None :: pre), post. now rewrite H.
Qed.

Lemma firstn_timeouts_le k k' (l : list (option Z)) :
  (k' <= k)%nat ->
  firstn k l = repeat None k ->
  firstn k' l = repeat None k'.
Proof.
  revert k l. induction k' as [|k' IH]; intros k l Hle H; [reflexivity|].
  destruct k as [|k]; [lia|]. destruct l as [|x l]; [discriminate|].
  cbn [firstn repeat] in *. inversion H; subst. f_equal.
  apply (IH k); [lia | assumption].
Qed.

Lemma timeouts_pending_nil c : (c <= 4)%nat -> ~ timeouts_pending c [].
Proof.
  intros Hc [H | H]; [|now apply five_timeouts_nil in H].
  destruct (5 - c)%nat eqn:Hk; [lia|]. rewrite firstn_nil in H. discriminate.
Qed.

Lemma timeouts_pending_Some c v l :
  (c <= 4)%nat ->
  timeouts_pending c (Some v :: l) <-> timeouts_pending 0 l.
Proof.
  intros Hc. unfold timeouts_pending. rewrite five_timeouts_Some. split.
  - intros [H | H]; [|now right].
    destruct (5 - c)%nat eqn:Hk; [lia|]. discriminate.
  - intros [H | H]; right; [now apply five_timeouts_start | exact H].
Qed.

Lemma timeouts_pending_last l : timeouts_pending 4 (None :: l).
Proof.
  left. reflexivity.
Qed.

Lemma timeouts_pending_None c l :
  (c < 4)%nat ->
  timeouts_pending c (None :: l) <-> timeouts_pending (S c) l.
Proof.
  intros Hc. unfold timeouts_pending. rewrite five_timeouts_None.
  replace (5 - c)%nat with (S (5 - S c)) by lia.
  cbn [firstn repeat]. split.
  - intros [H | [H | H]].
    + left. now inversion H.
    + left. apply (firstn_timeouts_le 4); [lia | exact H].
    + now right.
  - intros [H | H].
    + left. now rewrite H.
    + right. now right.
Qed.

(** An iteration that waits on the empty queue and is handed a message. *)
Lemma task_receiver_body_arrival tk e s v :
  g_queue s = [] ->
  rx_arrival e = Some v ->
  rx_malloc_ok e = true ->
  exists t,
    task_receiver_body tk e s =
    (Ok tt,
     set_g_flag_rx_ok true (set_g_hb_rx (rx_tick e) (set_timeouts 0 s)),
     t) /\
    transmitted t = [v].
Proof.
  intros Hq Ha Hm.
  destruct s as [q hg hr bg br bs fg fr x n k], e as [a t m fh mh].
  simpl in *. subst q a m.
  unfold task_receiver_body. simpl rx_free_heap.
  destruct (fh <? 20 * 1024); eexists; split; reflexivity.
Qed.

(** The loop, started after [c] timeouts in a row on a queue that only the
    arrivals feed, breaks exactly when the outcomes complete a run of
    five timeouts. *)
Lemma task_receiver_loop_breaks_iff tk es : forall s c,
  g_queue s = [] ->
  Forall (fun e => rx_malloc_ok e = true) es ->
  timeouts s = Z.of_nat c ->
  (c <= 4)%nat ->
  result_of (loop (task_receiver_body tk) es s) = Halt Break <->
  timeouts_pending c (map rx_arrival es).
Proof.
  induction es as [|e es IH]; intros s c Hq Hm Hn Hc.
  - simpl. split; [discriminate|]. intros H. now apply timeouts_pending_nil in H.
  - apply Forall_cons_iff in Hm. destruct Hm as [Hm Hms].
    cbn [map]. destruct (rx_arrival e) as [v|] eqn:Ha.
    + destruct (task_receiver_body_arrival tk e s v Hq Ha Hm) as (t & Hb & _).
      rewrite (loop_cons_run _ _ _ _ _ _ Hb).
      unfold result_of at 1. cbn [fst snd].
      rewrite timeouts_pending_Some by exact Hc.
      apply IH; auto; try lia; now destruct s.
    + destruct (Nat.eq_dec c 4) as [-> | Hc4].
      * rewrite (loop_cons_stop _ _ _ _ _ _ _
                   (task_receiver_body_fail tk e s Hq Ha Hn)).
        split; [intros _; apply timeouts_pending_last | reflexivity].
      * destruct (task_receiver_body_timeout tk e s (Z.of_nat c))
          as (t & Hb & _); auto; try lia.
        rewrite (loop_cons_run _ _ _ _ _ _ Hb).
        unfold result_of at 1. cbn [fst snd].
        rewrite timeouts_pending_None by lia.
        apply IH; auto; try lia; destruct s; simpl in *; auto; lia.
Qed.

(** X6: on a queue that nothing else feeds and with a working [malloc],
    the receiver ends exactly when the outcomes of its receives hold five
    timeouts in a row: any receive in between sets the count back, and
    five timeouts in a row always end it. *)
Theorem receiver_ends_iff_five_timeouts_in_a_row tk es s :
  g_queue s = [] ->
  Forall (fun e => rx_malloc_ok e = true) es ->
  result_of (task_receiver tk es s) = Halt TaskDeleted <->
  five_timeouts (map rx_arrival es).
Proof.
  intros Hq Hm. rewrite task_receiver_run.
  pose proof (task_receiver_loop_breaks_iff tk es (set_timeouts 0 s) 0) as Hiff.
  assert (Hpending : timeouts_pending 0 (map rx_arrival es) <->
                     five_timeouts (map rx_arrival es)).
  { unfold timeouts_pending. split; [intros [H | H] | intros H]; auto.
    now apply five_timeouts_start. }
  rewrite <- Hpending, <- Hiff; auto; try lia; try (now destruct s).
  pose proof (task_receiver_loop_invariant tk es (set_timeouts 0 s)) as Hinv.
  destruct (loop (task_receiver_body tk) es (set_timeouts 0 s)) as [[[[]|x] s1] t1];
    unfold result_of in *; cbn [fst snd] in *.
  - split; discriminate.
  - destruct Hinv as (-> & _); [simpl; lia|]. cbn [fst snd]. split; reflexivity.
Qed.

Lemma receiver_ends_iff_five_timeouts_in_a_row_witness :
  let es := repeat rx_timeout_env 4 ++ [rx_arrival_env 7 500 true]
            ++ repeat rx_timeout_env 5 in
  g_queue booted = [] /\
  (result_of (task_receiver ticks_100Hz es booted) = Halt TaskDeleted <->
   five_timeouts (map rx_arrival es)).
Proof.
  split; [reflexivity|].
  apply (receiver_ends_iff_five_timeouts_in_a_row ticks_100Hz
           (repeat rx_timeout_env 4 ++ [rx_arrival_env 7 500 true]
            ++ repeat rx_timeout_env 5) booted).
  - reflexivity.
  - repeat constructor.
Defined.

(** ** More on the generator *)

Lemma counting_length n : forall v, length (counting n v) = n.
Proof.
  induction n as [|n IH]; intros v; simpl; [reflexivity | now rewrite IH].
Qed.

Lemma task_generator_run tk es s :
  task_generator tk es s =
  (result_of (loop (task_generator_body tk) es (set_value 0 s)),
   state_of (loop (task_generator_body tk) es (set_value 0 s)),
   CallWdtAdd :: trace_of (loop (task_generator_body tk) es (set_value 0 s))).
Proof.
  unfold task_generator.
  rewrite (bind_ok _ _ s tt s [CallWdtAdd]) by reflexivity.
  rewrite (bind_ok _ _ s tt (set_value 0 s) []) by reflexivity.
  reflexivity.
Qed.

(** Runs one generator iteration on a queue with room and on a full one,
    with and without the stack warning. *)
Ltac generator_cases :=
  match goal with
  | s : State, e : GenEnv |- _ =>
      destruct s as [q hg hr bg br bs fg fr v n k], e as [t w];
      unfold task_generator_body, xQueueSend, queue_send, bind, gets;
      simpl;
      destruct (length q <? QUEUE_LEN)%nat eqn:?; destruct (w <? 100)
  end.

(** What every iteration does, whether its send succeeds or not. *)
Lemma task_generator_body_always tk e s :
  let r := task_generator_body tk e s in
  result_of r = Ok tt /\
  value (state_of r) = int_incr (value s) /\
  attempted (trace_of r) = [value s] /\
  g_queue (state_of r) = g_queue s ++ queued (trace_of r) /\
  count_calls is_wdt_reset (trace_of r) = 1%nat /\
  Forall (fun c => is_lifecycle c = false) (trace_of r).
Proof.
  generator_cases; cbn; rewrite ?app_nil_r; repeat split; repeat constructor.
Qed.

Lemma task_generator_loop_always tk es : forall s,
  let r := loop (task_generator_body tk) es s in
  result_of r = Ok tt /\
  value (state_of r) = Nat.iter (length es) int_incr (value s) /\
  attempted (trace_of r) = counting (length es) (value s) /\
  g_queue (state_of r) = g_queue s ++ queued (trace_of r) /\
  count_calls is_wdt_reset (trace_of r) = length es /\
  Forall (fun c => is_lifecycle c = false) (trace_of r).
Proof.
  induction es as [|e es IH]; intros s.
  - simpl. rewrite app_nil_r. repeat split; constructor.
  - destruct (task_generator_body_always tk e s) as (Hr & Hv & Ha & Hq & Hw & Hl).
    specialize (IH (state_of (task_generator_body tk e s))).
    destruct IH as (IHr & IHv & IHa & IHq & IHw & IHl).
    cbv zeta.
    rewrite (loop_cons_result _ _ _ _ Hr), (loop_cons_state _ _ _ _ Hr),
      (loop_cons_trace _ _ _ _ Hr).
    repeat split.
    + exact IHr.
    + rewrite IHv, Hv. simpl length. now rewrite Nat.iter_succ_r.
    + unfold attempted in *. rewrite flat_map_app, Ha, IHa, Hv. reflexivity.
    + rewrite IHq, Hq. unfold queued. now rewrite flat_map_app, app_assoc.
    + unfold count_calls in *. rewrite filter_app, length_app, Hw, IHw. reflexivity.
    + apply Forall_app. split; assumption.
Qed.

(** X7: the generator never leaves its loop: whatever the queue does, every
    iteration completes, tries the next value of the sequence 0, 1, 2, ...
    (none skipped, none repeated), and checks in with the watchdog once;
    it deletes and creates no task and does not restart the device. *)
Theorem generator_never_stops tk es s :
  let r := task_generator tk es s in
  result_of r = Ok tt /\
  attempted (trace_of r) = counting (length es) 0 /\
  value (state_of r) = Nat.iter (length es) int_incr 0 /\
  count_calls is_wdt_reset (trace_of r) = length es /\
  count_calls is_lifecycle (trace_of r) = 0%nat.
Proof.
  cbv zeta. rewrite task_generator_run.
  destruct (task_generator_loop_always tk es (set_value 0 s))
    as (Hr & Hv & Ha & _ & Hw & Hl).
  replace (value (set_value 0 s)) with 0 in * by (now destruct s).
  apply count_calls_none in Hl.
  unfold result_of, state_of, trace_of, count_calls in *.
  cbn [fst snd filter is_wdt_reset is_lifecycle attempted flat_map app].
  auto.
Qed.

(** X8: the queue after a run of the generator is the queue before it
    followed by the values reported as queued, in the order of the
    reports, and it never holds more than [QUEUE_LEN] messages. *)
Theorem generator_queue_within_capacity tk es s :
  (length (g_queue s) <= QUEUE_LEN)%nat ->
  let r := task_generator tk es s in
  g_queue (state_of r) = g_queue s ++ queued (trace_of r) /\
  (length (g_queue (state_of r)) <= QUEUE_LEN)%nat.
Proof.
  intros Hcap. cbv zeta. rewrite task_generator_run.
  unfold state_of at 1 3, trace_of at 1. cbn [fst snd].
  split.
  - destruct (task_generator_loop_always tk es (set_value 0 s))
      as (_ & _ & _ & Hq & _).
    rewrite Hq. now destruct s.
  - apply (loop_invariant (task_generator_body tk)
             (fun s' => (length (g_queue s') <= QUEUE_LEN)%nat));
      [|now destruct s].
    clear. intros e s Hs.
    destruct s as [q hg hr bg br bs fg fr v n k], e as [t w].
    unfold task_generator_body, xQueueSend, queue_send, bind, gets.
    simpl in *.
    destruct (length q <? QUEUE_LEN)%nat eqn:Hroom; destruct (w <? 100); cbn;
      try exact Hs;
      apply Nat.ltb_lt in Hroom; rewrite length_app; simpl; lia.
Qed.

Lemma generator_queue_within_capacity_witness :
  let r := task_generator ticks_100Hz (gen_envs 12 0) booted in
  (length (g_queue booted) <= QUEUE_LEN)%nat /\
  g_queue (state_of r) = g_queue booted ++ queued (trace_of r) /\
  (length (g_queue (state_of r)) <= QUEUE_LEN)%nat.
Proof.
  split; [simpl; unfold QUEUE_LEN; lia|].
  apply (generator_queue_within_capacity ticks_100Hz (gen_envs 12 0) booted).
  simpl. unfold QUEUE_LEN. lia.
Defined.

(** The globals an iteration of the generator leaves alone. *)
Lemma task_generator_body_frame tk e s :
  let s' := state_of (task_generator_body tk e s) in
  (g_task_gen s', g_task_rx s', g_hb_rx s', g_hb_sup s', g_flag_rx_ok s',
   timeouts s', rx_restarts s') =
  (g_task_gen s, g_task_rx s, g_hb_rx s, g_hb_sup s, g_flag_rx_ok s,
   timeouts s, rx_restarts s).
Proof.
  generator_cases; reflexivity.
Qed.

(** X9: the generator writes its own heartbeat, flag and counter and the
    queue only. *)
Theorem generator_writes_only_its_own_globals tk es s :
  let s' := state_of (task_generator tk es s) in
  (g_task_gen s', g_task_rx s', g_hb_rx s', g_hb_sup s', g_flag_rx_ok s',
   timeouts s', rx_restarts s') =
  (g_task_gen s, g_task_rx s, g_hb_rx s, g_hb_sup s, g_flag_rx_ok s,
   timeouts s, rx_restarts s).
Proof.
  cbv zeta. rewrite task_generator_run. unfold state_of at 1. cbn [fst snd].
  apply (loop_invariant (task_generator_body tk)
           (fun s' =>
              (g_task_gen s', g_task_rx s', g_hb_rx s', g_hb_sup s',
               g_flag_rx_ok s', timeouts s', rx_restarts s') =
              (g_task_gen s, g_task_rx s, g_hb_rx s, g_hb_sup s,
               g_flag_rx_ok s, timeouts s, rx_restarts s)));
    [|now destruct s].
  intros e' s' Hs'. exact (eq_trans (task_generator_body_frame tk e' s') Hs').
Qed.

(** X10: what the generator queues, the receiver transmits: after [n]
    iterations of the generator on an empty queue with room for them, [n]
    iterations of the receiver (with a working [malloc]) transmit the
    values 0, 1, ... in the order they were sent and leave the queue
    empty. *)
Theorem generator_to_receiver_in_order tk ges res s :
  g_queue s = [] ->
  (length ges <= QUEUE_LEN)%nat ->
  length res = length ges ->
  Forall (fun e => rx_malloc_ok e = true) res ->
  let g := task_generator tk ges s in
  let r := task_receiver tk res (state_of g) in
  result_of r = Ok tt /\
  transmitted (trace_of r) = counting (length ges) 0 /\
  queued (trace_of g) = counting (length ges) 0 /\
  g_queue (state_of r) = [].
Proof.
  intros Hq Hlen Hres Hm.
  assert (Hgen : g_queue (state_of (task_generator tk ges s)) =
                 counting (length ges) 0 /\
                 queued (trace_of (task_generator tk ges s)) =
                 counting (length ges) 0).
  { assert (Hq0 : g_queue (set_value 0 s) = []) by (now destruct s).
    assert (Hv0 : value (set_value 0 s) = 0) by (now destruct s).
    destruct (task_generator_loop_fills tk ges (set_value 0 s)) as (_ & Hfill & _).
    { rewrite Hq0. simpl. exact Hlen. }
    destruct (task_generator_loop_always tk ges (set_value 0 s))
      as (_ & _ & _ & Hqd & _).
    rewrite Hq0, Hv0 in *. simpl app in *.
    rewrite task_generator_run.
    unfold result_of, state_of, trace_of in *. cbn [fst snd] in *.
    split; [exact Hfill|].
    unfold queued in *. cbn [flat_map app]. congruence. }
  destruct Hgen as [Hgq Hgd].
  cbv zeta. remember (task_generator tk ges s) as g eqn:Hg. clear Hg.
  rewrite task_receiver_run.
  destruct (task_receiver_loop_drains tk res (set_timeouts 0 (state_of g)))
    as (Hr & Ht & Hqr).
  { replace (g_queue (set_timeouts 0 (state_of g))) with (g_queue (state_of g))
      by (now destruct (state_of g)).
    rewrite Hgq, counting_length. lia. }
  { exact Hm. }
  replace (g_queue (set_timeouts 0 (state_of g))) with (g_queue (state_of g)) in *
    by (now destruct (state_of g)).
  rewrite Hgq, Hres in Ht, Hqr.
  rewrite <- (counting_length (length ges) 0) in Ht at 1.
  rewrite <- (counting_length (length ges) 0) in Hqr at 1.
  rewrite firstn_all in Ht. rewrite skipn_all in Hqr.
  destruct (loop (task_receiver_body tk) res (set_timeouts 0 (state_of g)))
    as [[r1 s2] t2].
  unfold result_of in Hr. unfold trace_of in Ht. unfold state_of at 1 in Hqr.
  cbn [fst snd] in Hr, Ht, Hqr. subst r1.
  unfold result_of at 1, state_of at 1, trace_of at 1. cbn [fst snd].
  auto.
Qed.

Lemma generator_to_receiver_in_order_witness :
  let g := task_generator ticks_100Hz (gen_envs 3 0) booted in
  let r := task_receiver ticks_100Hz
             [rx_arrival_env 0 50 true; rx_arrival_env 0 55 true;
              rx_arrival_env 0 60 true] (state_of g) in
  result_of r = Ok tt /\
  transmitted (trace_of r) = [0; 1; 2] /\
  queued (trace_of g) = [0; 1; 2] /\
  g_queue (state_of r) = [].
Proof.
  apply (generator_to_receiver_in_order ticks_100Hz (gen_envs 3 0)
           [rx_arrival_env 0 50 true; rx_arrival_env 0 55 true;
            rx_arrival_env 0 60 true] booted).
  - reflexivity.
  - simpl. unfold QUEUE_LEN. lia.
  - reflexivity.
  - repeat constructor.
Defined.

(** ** More on the supervisor *)

Lemma task_supervisor_run tk es s :
  task_supervisor tk es s =
  (result_of (loop (task_supervisor_body tk) es (set_rx_restarts 0 s)),
   state_of (loop (task_supervisor_body tk) es (set_rx_restarts 0 s)),
   CallWdtAdd :: trace_of (loop (task_supervisor_body tk) es (set_rx_restarts 0 s))).
Proof.
  unfold task_supervisor.
  rewrite (bind_ok _ _ s tt s [CallWdtAdd]) by reflexivity.
  rewrite (bind_ok _ _ s tt (set_rx_restarts 0 s) []) by reflexivity.
  reflexivity.
Qed.

(** X11: a tick that finds both heartbeats fresh, the receiver's handle
    present and the minimum heap at or above 8 KiB changes nothing but the
    supervisor's own heartbeat: it deletes and creates no task, does not
    restart the device and leaves flags, heartbeats and restart counter as
    they are. *)
Theorem healthy_tick_changes_nothing tk e s :
  gen_stalled tk (sup_now e) s = false ->
  rx_absent_or_stalled tk (sup_now e) s = false ->
  8 * 1024 <= sup_min_heap e ->
  task_supervisor_body tk e s =
  (Ok tt, set_g_hb_sup (sup_now e) s,
   [CallTaskDelay (tk SUP_PERIOD_MS);
    CallPrintf (MsgSupStatus (g_flag_gen_ok s) (g_hb_gen s) (g_flag_rx_ok s) (g_hb_rx s));
    CallPrintf (MsgSupHeap (sup_free_heap e) (sup_min_heap e));
    CallWdtReset]).
Proof.
  intros Hgen Hrx Hmin.
  assert (Hmin' : (sup_min_heap e <? 8192) = false) by (apply Z.ltb_ge; lia).
  destruct s as [q hg hr bg br bs fg fr v k rs],
           e as [now cg tg cr tr fhr fh mh].
  unfold gen_stalled, rx_absent_or_stalled in *. simpl in Hgen, Hrx, Hmin'.
  destruct hr as [h|]; [|discriminate].
  supervisor_cases; reflexivity.
Qed.

Lemma healthy_tick_changes_nothing_witness :
  let s := set_g_hb_rx 580 (set_g_hb_gen 590 booted) in
  let e := mkSupEnv 600 None 600 None 600 200000 200000 150000 in
  task_supervisor_body ticks_100Hz e s =
  (Ok tt, set_g_hb_sup 600 s,
   [CallTaskDelay 150; CallPrintf (MsgSupStatus false 590 false 580);
    CallPrintf (MsgSupHeap 200000 150000); CallWdtReset]).
Proof.
  apply (healthy_tick_changes_nothing ticks_100Hz
           (mkSupEnv 600 None 600 None 600 200000 200000 150000)
           (set_g_hb_rx 580 (set_g_hb_gen 590 booted)));
    try reflexivity.
  simpl. lia.
Defined.

(** X12: a tick that finds the receiver's handle missing, or its heartbeat
    older than five supervisor periods, reports it, deletes the task only
    if it has a handle for one, creates the receiver, counts the
    recreation, stamps the receiver's heartbeat with the tick count read
    after the creation and clears its health flag. *)
Theorem stalled_receiver_is_recreated tk e s :
  rx_absent_or_stalled tk (sup_now e) s = true ->
  let r := task_supervisor_body tk e s in
  (exists pre rest,
     trace_of r =
       pre ++ [CallPrintf MsgSupRxStalled]
           ++ match g_task_rx s with
              | Some h => [CallTaskDelete (Some h)]
              | None => []
              end
           ++ CallTaskCreate TaskReceiver :: rest) /\
  g_task_rx (state_of r) = sup_created_rx e /\
  rx_restarts (state_of r) = int_incr (rx_restarts s) /\
  g_hb_rx (state_of r) = sup_tick_rx e /\
  g_flag_rx_ok (state_of r) = false.
Proof.
  intros Hstale.
  destruct s as [q hg hr bg br bs fg fr v k rs],
           e as [now cg tg cr tr fhr fh mh].
  unfold rx_absent_or_stalled in Hstale. simpl in Hstale.
  destruct hr as [h|];
    supervisor_cases; repeat split;
    try discriminate;
    first [ eexists [_; _], _; reflexivity
          | eexists [_; _; _; _], _; reflexivity
          | eexists [_; _; _; _; _], _; reflexivity ].
Qed.

Lemma stalled_receiver_is_recreated_witness :
  let s := set_g_task_rx None booted in
  let e := mkSupEnv 600 None 600 (Some 4%nat) 601 200000 200000 150000 in
  let r := task_supervisor_body ticks_100Hz e s in
  rx_absent_or_stalled ticks_100Hz 600 s = true /\
  (exists pre rest,
     trace_of r =
       pre ++ [CallPrintf MsgSupRxStalled] ++ [] ++ CallTaskCreate TaskReceiver :: rest) /\
  g_task_rx (state_of r) = Some 4%nat /\
  rx_restarts (state_of r) = 1 /\
  g_hb_rx (state_of r) = 601 /\
  g_flag_rx_ok (state_of r) = false.
Proof.
  split; [reflexivity|].
  apply (stalled_receiver_is_recreated ticks_100Hz
           (mkSupEnv 600 None 600 (Some 4%nat) 601 200000 200000 150000)
           (set_g_task_rx None booted)).
  reflexivity.
Defined.

(** What a tick does to the restart counter, and how it ends. *)
Lemma task_supervisor_body_counts tk e s :
  let r := task_supervisor_body tk e s in
  let recreate := rx_absent_or_stalled tk (sup_now e) s in
  rx_restarts (state_of r) =
    (if recreate then int_incr (rx_restarts s) else rx_restarts s) /\
  count_calls (is_create TaskReceiver) (trace_of r) =
    (if recreate then 1%nat else 0%nat) /\
  (exhaustion_restart (trace_of r) = true -> 3 <= rx_restarts (state_of r)).
Proof.
  destruct s as [q hg hr bg br bs fg fr v k rs],
           e as [now cg tg cr tr fhr fh mh].
  supervisor_cases; repeat split; try discriminate; intros _;
    match goal with
    | H : (_ >=? 3) = true |- _ => rewrite Z.geb_leb in H; apply Z.leb_le in H; exact H
    end.
Qed.

Lemma task_supervisor_body_result tk e s :
  let r := task_supervisor_body tk e s in
  match result_of r with
  | Ok _ =>
      restarted (trace_of r) = false /\
      exhaustion_restart (trace_of r) = false /\
      count_calls is_wdt_reset (trace_of r) = 1%nat
  | Halt x =>
      x = DeviceRestart /\
      count_calls is_restart (trace_of r) = 1%nat /\
      count_calls is_wdt_reset (trace_of r) = 0%nat /\
      exists pre, trace_of r = pre ++ [CallRestart]
  end.
Proof.
  destruct s as [q hg hr bg br bs fg fr v k rs],
           e as [now cg tg cr tr fhr fh mh].
  supervisor_cases; repeat split;
    first [ eexists [_; _; _; _]; reflexivity
          | eexists [_; _; _; _; _]; reflexivity
          | eexists [_; _; _; _; _; _]; reflexivity
          | eexists [_; _; _; _; _; _; _]; reflexivity
          | eexists [_; _; _; _; _; _; _; _]; reflexivity
          | eexists [_; _; _; _; _; _; _; _; _]; reflexivity
          | eexists [_; _; _; _; _; _; _; _; _; _]; reflexivity
          | eexists [_; _; _; _; _; _; _; _; _; _; _]; reflexivity
          | eexists [_; _; _; _; _; _; _; _; _; _; _; _]; reflexivity ].
Qed.

Lemma task_supervisor_body_frame tk e s :
  let r := task_supervisor_body tk e s in
  (g_queue (state_of r), value (state_of r), timeouts (state_of r)) =
  (g_queue s, value s, timeouts s) /\
  g_hb_sup (state_of r) = sup_now e /\
  Forall (fun c => is_queue_reset c = false) (trace_of r).
Proof.
  destruct s as [q hg hr bg br bs fg fr v k rs],
           e as [now cg tg cr tr fhr fh mh].
  supervisor_cases; repeat split; repeat constructor.
Qed.

(** How a run of ticks ends: in a device restart, which is then its last
    call, or not at all. *)
Lemma task_supervisor_loop_quiet tk es : forall s,
  let r := loop (task_supervisor_body tk) es s in
  match result_of r with
  | Ok _ =>
      restarted (trace_of r) = false /\
      exhaustion_restart (trace_of r) = false /\
      count_calls is_wdt_reset (trace_of r) = length es
  | Halt x =>
      x = DeviceRestart /\
      count_calls is_restart (trace_of r) = 1%nat /\
      (count_calls is_wdt_reset (trace_of r) < length es)%nat /\
      exists pre, trace_of r = pre ++ [CallRestart]
  end.
Proof.
  induction es as [|e es IH]; intros s.
  - simpl. auto.
  - pose proof (task_supervisor_body_result tk e s) as Hres. cbv zeta in *.
    destruct (result_of (task_supervisor_body tk e s)) as [[]|x] eqn:Hr.
    + destruct Hres as (Hno & Hnx & Hw).
      rewrite (loop_cons_result _ _ _ _ Hr), (loop_cons_trace _ _ _ _ Hr).
      specialize (IH (state_of (task_supervisor_body tk e s))).
      unfold restarted, exhaustion_restart, count_calls in *.
      rewrite !existsb_app, !filter_app, !length_app, Hno, Hnx, Hw.
      assert (Hnone : length (filter is_restart
                                (trace_of (task_supervisor_body tk e s))) = 0%nat).
      { clear -Hno. induction (trace_of (task_supervisor_body tk e s)) as [|c l IHl];
          [reflexivity|]. simpl in *. destruct (is_restart c); [discriminate|].
        now apply IHl. }
      rewrite Hnone. cbn [orb Nat.add].
      destruct (result_of (loop (task_supervisor_body tk) es
                             (state_of (task_supervisor_body tk e s)))).
      * destruct IH as (? & ? & ?). cbn [length]. repeat split; auto; lia.
      * destruct IH as (? & ? & ? & (pre & Hpre)). cbn [length].
        repeat split; auto; try lia.
        exists (trace_of (task_supervisor_body tk e s) ++ pre).
        now rewrite Hpre, app_assoc.
    + rewrite (loop_cons_halt _ _ _ _ _ Hr).
      unfold result_of, trace_of, count_calls in *. cbn [fst snd] in *.
      destruct Hres as (? & ? & Hw & ?). rewrite Hw. cbn [length].
      repeat split; auto; lia.
Qed.

(** The restart counter over a run of ticks: it grows by one with every
    creation of a receiver. *)
Lemma task_supervisor_loop_counts tk es : forall s,
  0 <= rx_restarts s ->
  rx_restarts s + Z.of_nat (length es) <= INT_MAX ->
  let r := loop (task_supervisor_body tk) es s in
  rx_restarts (state_of r) =
    rx_restarts s + Z.of_nat (count_calls (is_create TaskReceiver) (trace_of r)) /\
  (count_calls (is_create TaskReceiver) (trace_of r) <= length es)%nat /\
  (exhaustion_restart (trace_of r) = true -> 3 <= rx_restarts (state_of r)).
Proof.
  induction es as [|e es IH]; intros s Hpos Hmax.
  - cbn. repeat split; try lia; try discriminate.
  - cbn [length] in Hmax.
    destruct (task_supervisor_body_counts tk e s) as (Hn & Hc & Hx).
    assert (Hn' : rx_restarts (state_of (task_supervisor_body tk e s)) =
                  rx_restarts s +
                  Z.of_nat (count_calls (is_create TaskReceiver)
                              (trace_of (task_supervisor_body tk e s)))).
    { rewrite Hn, Hc. destruct (rx_absent_or_stalled tk (sup_now e) s).
      - rewrite int_incr_small by (unfold INT_MAX in *; lia). lia.
      - lia. }
    assert (Hc' : (count_calls (is_create TaskReceiver)
                     (trace_of (task_supervisor_body tk e s)) <= 1)%nat).
    { rewrite Hc. destruct (rx_absent_or_stalled tk (sup_now e) s); lia. }
    clear Hn Hc. cbv zeta.
    pose proof (task_supervisor_body_result tk e s) as Hres. cbv zeta in Hres.
    destruct (result_of (task_supervisor_body tk e s)) as [[]|x] eqn:Hr.
    + rewrite (loop_cons_state _ _ _ _ Hr), (loop_cons_trace _ _ _ _ Hr).
      destruct (IH (state_of (task_supervisor_body tk e s))) as (IHn & IHc & IHx);
        [lia | lia |].
      unfold count_calls, exhaustion_restart in *.
      rewrite filter_app, length_app, existsb_app.
      destruct Hres as (_ & Hno & _). rewrite Hno. cbn [orb length].
      repeat split; try lia; try exact IHx.
    + rewrite (loop_cons_halt _ _ _ _ _ Hr).
      unfold state_of, trace_of in *. cbn [fst snd length] in *.
      repeat split; try lia; try exact Hx.
Qed.

(** X13: the supervisor's restart counter is the number of receivers it
    has created since it started, for any run of fewer than 2^31 ticks. *)
Theorem restart_counter_counts_recreations tk es s :
  Z.of_nat (length es) <= INT_MAX ->
  let r := task_supervisor tk es s in
  rx_restarts (state_of r) =
  Z.of_nat (count_calls (is_create TaskReceiver) (trace_of r)).
Proof.
  intros Hlen. cbv zeta. rewrite task_supervisor_run.
  destruct (task_supervisor_loop_counts tk es (set_rx_restarts 0 s)) as (Hn & _).
  { now destruct s. }
  { replace (rx_restarts (set_rx_restarts 0 s)) with 0 by (now destruct s). lia. }
  replace (rx_restarts (set_rx_restarts 0 s)) with 0 in Hn by (now destruct s).
  unfold state_of, trace_of, count_calls in *.
  cbn [fst snd filter is_create] in *. rewrite Hn. lia.
Qed.

Lemma restart_counter_counts_recreations_witness :
  let es := [mkSupEnv 800 None 800 (Some 4%nat) 800 200000 200000 150000;
             mkSupEnv 950 None 950 None 950 200000 200000 150000;
             mkSupEnv 1800 None 1800 (Some 5%nat) 1800 200000 200000 150000] in
  let r := task_supervisor ticks_100Hz es booted in
  rx_restarts (state_of r) = 2 /\
  rx_restarts (state_of r) =
  Z.of_nat (count_calls (is_create TaskReceiver) (trace_of r)).
Proof.
  split; [reflexivity|].
  apply (restart_counter_counts_recreations ticks_100Hz
           [mkSupEnv 800 None 800 (Some 4%nat) 800 200000 200000 150000;
            mkSupEnv 950 None 950 None 950 200000 200000 150000;
            mkSupEnv 1800 None 1800 (Some 5%nat) 1800 200000 200000 150000]
           booted).
  unfold INT_MAX. simpl. lia.
Defined.

(** X14: the supervisor does not take the restart of the "many recreations
    and little memory" heuristic before it has created the receiver three
    times, however little memory is free. *)
Theorem exhaustion_restart_needs_three_recreations tk es s :
  Z.of_nat (length es) <= INT_MAX ->
  let r := task_supervisor tk es s in
  exhaustion_restart (trace_of r) = true ->
  (3 <= count_calls (is_create TaskReceiver) (trace_of r))%nat /\
  result_of r = Halt DeviceRestart.
Proof.
  intros Hlen. cbv zeta. rewrite task_supervisor_run.
  destruct (task_supervisor_loop_counts tk es (set_rx_restarts 0 s)) as (Hn & _ & Hx).
  { now destruct s. }
  { replace (rx_restarts (set_rx_restarts 0 s)) with 0 by (now destruct s). lia. }
  replace (rx_restarts (set_rx_restarts 0 s)) with 0 in Hn by (now destruct s).
  pose proof (task_supervisor_loop_quiet tk es (set_rx_restarts 0 s)) as Hquiet.
  unfold result_of, state_of, trace_of, count_calls, exhaustion_restart in *.
  cbn [fst snd existsb is_exhaustion_report orb filter is_create] in *.
  intros Hfired. split.
  - specialize (Hx Hfired). lia.
  - destruct (fst (fst (loop (task_supervisor_body tk) es (set_rx_restarts 0 s))))
      as [[]|x].
    + destruct Hquiet as (_ & Hq & _). congruence.
    + destruct Hquiet as (-> & _). reflexivity.
Qed.

Lemma exhaustion_restart_needs_three_recreations_witness :
  let es := [mkSupEnv 800 None 800 (Some 4%nat) 800 200000 200000 150000;
             mkSupEnv 1600 None 1600 (Some 5%nat) 1600 200000 200000 150000;
             mkSupEnv 2400 None 2400 (Some 6%nat) 2400 10000 10000 9000] in
  let r := task_supervisor ticks_100Hz es booted in
  exhaustion_restart (trace_of r) = true /\
  (3 <= count_calls (is_create TaskReceiver) (trace_of r))%nat /\
  result_of r = Halt DeviceRestart.
Proof.
  split; [reflexivity|].
  apply (exhaustion_restart_needs_three_recreations ticks_100Hz
           [mkSupEnv 800 None 800 (Some 4%nat) 800 200000 200000 150000;
            mkSupEnv 1600 None 1600 (Some 5%nat) 1600 200000 200000 150000;
            mkSupEnv 2400 None 2400 (Some 6%nat) 2400 10000 10000 9000]
           booted).
  - unfold INT_MAX. simpl. lia.
  - reflexivity.
Defined.

(** X15: the supervisor stops in one way only, by restarting the device,
    and the restart is then the last thing it does; while it runs it has
    not called [esp_restart] and has checked in with the watchdog once per
    tick.  The tick that restarts the device does not check in. *)
Theorem supervisor_stops_only_by_restart tk es s :
  let r := task_supervisor tk es s in
  match result_of r with
  | Ok _ =>
      restarted (trace_of r) = false /\
      count_calls is_wdt_reset (trace_of r) = length es
  | Halt x =>
      x = DeviceRestart /\
      count_calls is_restart (trace_of r) = 1%nat /\
      (count_calls is_wdt_reset (trace_of r) < length es)%nat /\
      exists pre, trace_of r = pre ++ [CallRestart]
  end.
Proof.
  cbv zeta. rewrite task_supervisor_run.
  pose proof (task_supervisor_loop_quiet tk es (set_rx_restarts 0 s)) as Hquiet.
  unfold result_of, trace_of, count_calls, restarted in *.
  cbn [fst snd existsb is_restart orb filter is_wdt_reset] in *.
  destruct (fst (fst (loop (task_supervisor_body tk) es (set_rx_restarts 0 s))))
    as [[]|x].
  - destruct Hquiet as (? & _ & ?). auto.
  - destruct Hquiet as (? & ? & ? & (pre & Hpre)). repeat split; auto.
    exists (CallWdtAdd :: pre). now rewrite Hpre.
Qed.

(** X16: the supervisor never touches the queue: it does not call
    [xQueueReset], and the queue and the counters of the other two tasks
    are as it found them after any number of ticks. *)
Theorem supervisor_leaves_queue_alone tk es s :
  let r := task_supervisor tk es s in
  (g_queue (state_of r), value (state_of r), timeouts (state_of r)) =
  (g_queue s, value s, timeouts s) /\
  count_calls is_queue_reset (trace_of r) = 0%nat.
Proof.
  cbv zeta. rewrite task_supervisor_run.
  pose proof (loop_invariant (task_supervisor_body tk)
                (fun s' => (g_queue s', value s', timeouts s') =
                           (g_queue s, value s, timeouts s))) as Hinv.
  specialize (Hinv (fun e' s' Hs' =>
                      eq_trans (proj1 (task_supervisor_body_frame tk e' s')) Hs')
                   es (set_rx_restarts 0 s)).
  pose proof (loop_trace_Forall (task_supervisor_body tk)
                (fun c => is_queue_reset c = false)
                (fun e' s' => proj2 (proj2 (task_supervisor_body_frame tk e' s')))
                es (set_rx_restarts 0 s)) as Hcalls.
  apply count_calls_none in Hcalls.
  unfold state_of, trace_of, count_calls in *.
  cbn [fst snd filter is_queue_reset] in *.
  split; [apply Hinv; now destruct s | exact Hcalls].
Qed.

(** X17: once the heartbeat of a receiver that deleted itself is older
    than five supervisor periods, the supervisor calls [vTaskDelete] on
    the handle of that receiver, which is still stored although its task
    is gone, and then creates the new receiver. *)
Theorem self_deleted_receiver_is_deleted_again tk es e s h :
  g_task_rx s = Some h ->
  let r := task_receiver tk es s in
  result_of r = Halt TaskDeleted ->
  stalled tk 5 (sup_now e) (g_hb_rx (state_of r)) = true ->
  let sup := task_supervisor_body tk e (state_of r) in
  exists pre rest,
    trace_of sup =
    pre ++ [CallPrintf MsgSupRxStalled; CallTaskDelete (Some h);
            CallTaskCreate TaskReceiver] ++ rest.
Proof.
  intros Hh r _ Hstale.
  assert (Hkeep : g_task_rx (state_of r) = Some h)
    by (subst r; now rewrite task_receiver_keeps_handle).
  generalize dependent (state_of r). clear r. intros s1 Hstale Hkeep.
  cbv zeta.
  destruct s1 as [q hg hr bg br bs fg fr v k rs],
           e as [now cg tg cr tr fhr fh mh].
  simpl in Hstale, Hkeep. subst hr.
  supervisor_cases;
    first [ eexists [_; _], _; reflexivity
          | eexists [_; _; _; _], _; reflexivity
          | eexists [_; _; _; _; _], _; reflexivity ].
Qed.

Lemma self_deleted_receiver_is_deleted_again_witness :
  let r := task_receiver ticks_100Hz (repeat rx_timeout_env 5) booted in
  let e := mkSupEnv 900 None 900 (Some 4%nat) 900 200000 200000 150000 in
  let sup := task_supervisor_body ticks_100Hz e (state_of r) in
  result_of r = Halt TaskDeleted /\
  exists pre rest,
    trace_of sup =
    pre ++ [CallPrintf MsgSupRxStalled; CallTaskDelete (Some 2%nat);
            CallTaskCreate TaskReceiver] ++ rest.
Proof.
  split; [reflexivity|].
  apply (self_deleted_receiver_is_deleted_again ticks_100Hz
           (repeat rx_timeout_env 5)
           (mkSupEnv 900 None 900 (Some 4%nat) 900 200000 200000 150000)
           booted 2%nat);
    reflexivity.
Defined.

(** ** Boot *)

(** X18: with [pdPASS] an odd number (it is 1 in FreeRTOS), [app_main]
    leaves the system running exactly when the queue and the generator,
    receiver and supervisor tasks were all created, and ends in a device
    restart otherwise.  A queue that could not be created restarts the
    device before any task is created; after that all four tasks are
    asked for even when an earlier creation failed, and a logger that
    could not be created does not stop the boot. *)
Theorem boot_runs_iff_queue_and_core_tasks_created pdPASS e :
  Z.land pdPASS 1 = 1 ->
  let r := app_main pdPASS e in
  let all_created := boot_queue_ok e && is_some (boot_gen e)
                     && is_some (boot_rx e) && is_some (boot_sup e) in
  fst (fst r) = (if all_created then Ok tt else Halt DeviceRestart) /\
  boot_creates (snd r) =
    (if boot_queue_ok e
     then [BootGenerator; BootReceiver; BootSupervisor; BootLogger]
     else []) /\
  (if all_created
   then ~ In BootRestart (snd r) /\
        g_task_gen (boot_state (snd (fst r))) = boot_gen e /\
        g_task_rx (boot_state (snd (fst r))) = boot_rx e /\
        g_task_sup (snd (fst r)) = boot_sup e
   else exists pre, snd r = pre ++ [BootRestart]).
Proof.
  intros Hodd. destruct e as [[|] [g|] [x|] [p|] l]; unfold app_main;
    cbn [boot_queue_ok boot_gen boot_rx boot_sup boot_log negb created_ok
         is_some andb];
    rewrite ?Hodd, ?Z.land_0_r, ?Z.land_0_l; cbn [Z.land Pos.land Z.eqb];
    cbv zeta; cbn [fst snd]; repeat split;
    try (intros H; cbn in H;
         repeat (destruct H as [H | H]; try discriminate H); exact H);
    first [ eexists [_; _; _; _; _]; reflexivity
          | eexists [_; _; _; _; _; _; _; _; _]; reflexivity ].
Qed.

Lemma boot_runs_iff_queue_and_core_tasks_created_witness :
  let e := mkBootEnv true (Some 1%nat) (Some 2%nat) (Some 3%nat) None in
  let r := app_main 1 e in
  fst (fst r) = Ok tt /\
  boot_creates (snd r) = [BootGenerator; BootReceiver; BootSupervisor; BootLogger] /\
  ~ In BootRestart (snd r) /\
  g_task_gen (boot_state (snd (fst r))) = Some 1%nat /\
  g_task_rx (boot_state (snd (fst r))) = Some 2%nat /\
  g_task_sup (snd (fst r)) = Some 3%nat.
Proof.
  apply (boot_runs_iff_queue_and_core_tasks_created 1
           (mkBootEnv true (Some 1%nat) (Some 2%nat) (Some 3%nat) None)).
  reflexivity.
Defined.

(** X19: the supervisor creates a generator in a tick exactly when the
    generator's heartbeat is older than three supervisor periods; a
    missing generator handle alone does not make it create one. *)
Theorem supervisor_recreates_generator_iff tk e s :
  created TaskGenerator (trace_of (task_supervisor_body tk e s)) =
  gen_stalled tk (sup_now e) s.
Proof.
  destruct s as [q hg hr bg br bs fg fr v k rs],
           e as [now cg tg cr tr fhr fh mh].
  unfold gen_stalled. cbn [g_hb_gen sup_now].
  supervisor_cases; reflexivity.
Qed.

(** The state [booted] of the examples is what [app_main] leaves when the
    runtime hands out the handles 1 and 2. *)
Lemma booted_from_app_main :
  boot_state (snd (fst (app_main 1
    (mkBootEnv true (Some 1%nat) (Some 2%nat) (Some 3%nat) (Some 4%nat))))) = booted.
Proof.
  reflexivity.
Qed.
